(** * AI Messenger: response normalisation, prompt assembly and turn
      orchestration

    A shallow embedding of the core of the repository:
    - [api_handler.py] ([MessengerAPI]) and [core/api_manager.py]
      ([APIManager]): provider dispatch and the response cleaner;
    - [core/chat_manager.py] ([ChatManager]) and [ui/chat_area.py]
      ([ChatArea]): the modular conversation store and its turn loop;
    - [messenger_app.py] ([MessengerApp]): the monolithic application with
      photo directives and the typing indicator.

    Python strings are sequences of Unicode code points; dictionaries are
    finite maps; exceptions are an explicit result type. *)

From Stdlib Require Import NArith ZArith Ascii String QArith.
From stdpp Require Import gmap list.

Local Open Scope N_scope.

(** ** Python strings *)

(** A [str] value: its code points, in order. *)
Abbreviation pystr := (list N).

(** Source literals are written as they appear in the [.py] files (UTF-8)
    and decoded to code points. [k] counts the continuation bytes still
    expected, [acc] holds the bits read so far. *)
Fixpoint utf8_go (s : string) (acc : N) (k : nat) : pystr :=
  match s with
  | EmptyString => []
  | String b rest =>
      let n := N_of_ascii b in
      match k with
      | O =>
          if n <? 128 then n :: utf8_go rest 0 O
          else if n <? 224 then utf8_go rest (n - 192) 1%nat
          else if n <? 240 then utf8_go rest (n - 224) 2%nat
          else utf8_go rest (n - 240) 3%nat
      | S O => (acc * 64 + (n - 128)) :: utf8_go rest 0 O
      | S k' => utf8_go rest (acc * 64 + (n - 128)) k'
      end
  end.

Definition py (s : string) : pystr := utf8_go s 0 O.

(** Line feed, written [\n] in the source. *)
Definition nl : pystr := [10].

(** [str.isspace] on one code point: the white-space set used by
    [str.strip()] without arguments. *)
Definition isspace (c : N) : bool :=
  ((9 <=? c) && (c <=? 13)) || ((28 <=? c) && (c <=? 32))
  || (c =? 133) || (c =? 160) || (c =? 5760)
  || ((8192 <=? c) && (c <=? 8202))
  || (c =? 8232) || (c =? 8233) || (c =? 8239) || (c =? 8287) || (c =? 12288).

(** Truthiness of a string: [not text] holds exactly for the empty one. *)
Definition is_empty (text : pystr) : bool :=
  match text with [] => true | _ => false end.

Definition pystr_eqb (a b : pystr) : bool := bool_decide (a = b).

(** [text.startswith(tag)] *)
Fixpoint startswith (tag text : pystr) : bool :=
  match tag, text with
  | [], _ => true
  | _ :: _, [] => false
  | a :: tag', b :: text' => (a =? b) && startswith tag' text'
  end.

(** [tag in text] *)
Fixpoint contains (tag text : pystr) : bool :=
  startswith tag text ||
  match text with
  | [] => false
  | _ :: rest => contains tag rest
  end.

(** [text.split(tag)[0]] for a non-empty [tag]: everything before the
    first occurrence of [tag], the whole text when there is none. *)
Fixpoint split_head (tag text : pystr) : pystr :=
  if startswith tag text then []
  else match text with
       | [] => []
       | c :: rest => c :: split_head tag rest
       end.

Fixpoint lstrip (text : pystr) : pystr :=
  match text with
  | [] => []
  | c :: rest => if isspace c then lstrip rest else text
  end.

Fixpoint rstrip (text : pystr) : pystr :=
  match text with
  | [] => []
  | c :: rest =>
      match rstrip rest with
      | [] => if isspace c then [] else [c]
      | kept => c :: kept
      end
  end.

(** [text.strip()] *)
Definition strip (text : pystr) : pystr := rstrip (lstrip text).

(** ** The response cleaner *)

(** [cut_tags], the same list in both cleaners. *)
Definition cut_tags : list pystr :=
  [py "СТОП"; py "INST"; py "Human:"; py "Assistant:"; py "###"].

(** One turn of the loop body:
    [if tag in text: text = text.split(tag)[0]]. *)
Definition cut (text tag : pystr) : pystr :=
  if contains tag text then split_head tag text else text.

(** [for tag in cut_tags: ...] *)
Definition cut_all (text : pystr) : pystr := fold_left cut cut_tags text.

Module MessengerAPI_text.

Definition EMPTY_RESPONSE : pystr := py "Ответ модели оказался пустым.".
Definition EMPTY_AFTER_CLEANING : pystr :=
  py "Ответ модели оказался пустым после очистки.".

(** [MessengerAPI.clean_text] of [api_handler.py]. *)
Definition clean_text (text : pystr) : pystr :=
  if is_empty text then EMPTY_RESPONSE
  else
    let text := cut_all text in
    let text := strip text in
    if is_empty text then EMPTY_AFTER_CLEANING else text.

End MessengerAPI_text.

Module APIManager_text.

Definition EMPTY : pystr := py "Ответ пустой".

(** [APIManager._clean_text] of [core/api_manager.py]. *)
Definition _clean_text (text : pystr) : pystr :=
  if is_empty text then EMPTY
  else
    let text := cut_all text in
    if is_empty (strip text) then EMPTY else strip text.

End APIManager_text.

(** ** Exceptions *)

Inductive exn :=
| KeyError (key : pystr)
| IndexError
| ValueError (msg : pystr).

(** The outcome of a call: a value, a raised exception, or [Unmodelled]
    where a built-in leaves the fragment described here (see [format]). *)
Inductive result (A : Type) :=
| Ok (a : A)
| Raise (e : exn)
| Unmodelled.

Arguments Ok {A} a.
Arguments Raise {A} e.
Arguments Unmodelled {A}.

Definition bind {A B} (r : result A) (k : A -> result B) : result B :=
  match r with
  | Ok a => k a
  | Raise e => Raise e
  | Unmodelled => Unmodelled
  end.

Notation "'try!' x := r 'in' k" := (bind r (fun x => k))
  (at level 10, x name, r at level 100, k at level 200).

(** ** [str.format] with keyword arguments only *)

Definition LBRACE : N := 123.
Definition RBRACE : N := 125.

(** Characters that start a conversion, a format spec, an attribute, an
    index or a nested field inside a replacement field. *)
Definition is_special (c : N) : bool :=
  (c =? 33) || (c =? 58) || (c =? 46) || (c =? 91) || (c =? LBRACE).

Definition is_ascii_digit (c : N) : bool := (48 <=? c) && (c <=? 57).

(** Resolution of a replacement field made of a plain name. The empty name
    and a decimal number select a positional argument, of which
    [system_prompt.format(group_name=..., members=...)] passes none. Whether
    a non-ASCII character is a decimal digit is decided by the Unicode
    database, and the largest accepted number by the platform: names made
    only of digits and non-ASCII characters, or of more than nine digits,
    are left [Unmodelled]. *)
Definition get_field (kwargs : gmap pystr pystr) (name : pystr) : result pystr :=
  if is_empty name then Raise IndexError
  else if forallb is_ascii_digit name then
    if (length name <=? 9)%nat then Raise IndexError else Unmodelled
  else if forallb (fun c => is_ascii_digit c || (128 <=? c)) name then Unmodelled
  else match kwargs !! name with
       | Some v => Ok v
       | None => Raise (KeyError name)
       end.

Inductive fmt_mode :=
| Lit                      (* in literal text *)
| AfterOpen                (* just read one opening brace *)
| AfterClose               (* just read one closing brace in literal text *)
| Field (name : pystr).    (* inside a replacement field *)

(** The formatter reads the template left to right and renders each field
    as it meets it, so the first fault decides the exception. *)
Fixpoint format_go (kwargs : gmap pystr pystr) (template : pystr)
    (m : fmt_mode) (out : pystr) : result pystr :=
  match template with
  | [] =>
      match m with
      | Lit => Ok out
      | AfterOpen => Raise (ValueError (py "Single '{' encountered in format string"))
      | AfterClose => Raise (ValueError (py "Single '}' encountered in format string"))
      | Field _ => Raise (ValueError (py "expected '}' before end of string"))
      end
  | c :: rest =>
      match m with
      | Lit =>
          if c =? LBRACE then format_go kwargs rest AfterOpen out
          else if c =? RBRACE then format_go kwargs rest AfterClose out
          else format_go kwargs rest Lit (out ++ [c])
      | AfterOpen =>
          if c =? LBRACE then format_go kwargs rest Lit (out ++ [LBRACE])
          else if c =? RBRACE then
            try! v := get_field kwargs [] in format_go kwargs rest Lit (out ++ v)
          else if is_special c then Unmodelled
          else format_go kwargs rest (Field [c]) out
      | AfterClose =>
          if c =? RBRACE then format_go kwargs rest Lit (out ++ [RBRACE])
          else Raise (ValueError (py "Single '}' encountered in format string"))
      | Field name =>
          if c =? RBRACE then
            try! v := get_field kwargs name in format_go kwargs rest Lit (out ++ v)
          else if is_special c then Unmodelled
          else format_go kwargs rest (Field (name ++ [c])) out
      end
  end.

(** [template.format] applied to the keyword arguments [kwargs]. *)
Definition format (kwargs : gmap pystr pystr) (template : pystr) : result pystr :=
  format_go kwargs template Lit [].

(** [sep.join(parts)] *)
Fixpoint join (sep : pystr) (parts : list pystr) : pystr :=
  match parts with
  | [] => []
  | [x] => x
  | x :: rest => x ++ sep ++ join sep rest
  end.

(** [l[-n:]] for a positive constant [n]. *)
Definition lastn {A} (n : nat) (l : list A) : list A := drop (length l - n) l.

(** [config/settings.py] (and the same constants in [messenger_app.py]). *)
Definition MAX_MESSAGES_IN_HISTORY : nat := 100.
Definition MAX_MESSAGES_FOR_API : nat := 15.

Definition USER : pystr := py "user".
Definition TEXT : pystr := py "text".
Definition PHOTO : pystr := py "photo".
Definition IGNORE : pystr := py "[IGNORE]".

(** The keyword arguments of [system_prompt.format(group_name=..., members=...)]. *)
Definition group_kwargs (group_name members : pystr) : gmap pystr pystr :=
  <[py "group_name" := group_name]> (<[py "members" := members]> ∅).

(** An entry of a persona's [photos] list. *)
Record photo := { filename : pystr }.

(** ** core/chat_manager.py and ui/chat_area.py *)

Module Character.
(** [models/character.py] *)
Record t := mk {
  char_id : pystr;
  name : pystr;
  private_prompt : pystr;
  group_prompt : pystr;
  photos : list photo
}.
End Character.

Module Group.
(** [models/group.py] *)
Record t := mk {
  group_id : pystr;
  name : pystr;
  members : list pystr;
  group_context : pystr
}.
End Group.

Module Message.
(** [models/message.py] *)
Record t := mk {
  msg_id : pystr;
  sender : pystr;
  text : pystr;
  timestamp : pystr;
  msg_type : pystr;
  photo_path : pystr
}.
End Message.

Module ChatManager.

(** A message as [save_chat_history] writes it: the key [photo_path] is
    present only for a non-empty path. *)
Record msg_dict := {
  d_id : pystr;
  d_sender : pystr;
  d_text : pystr;
  d_timestamp : pystr;
  d_type : pystr;
  d_photo_path : option pystr
}.

(** The content of [chats/<chat_id>.json]. *)
Record chat_data := {
  f_chat_id : pystr;
  f_chat_type : pystr;
  f_character_id : option pystr;
  f_messages : list msg_dict
}.

(** The manager's dictionaries, the chat files on disk, and the number of
    clock readings made so far. *)
Record t := mk {
  characters : gmap pystr Character.t;
  groups : gmap pystr Group.t;
  chats : gmap pystr (list Message.t);
  files : gmap pystr chat_data;
  ticks : nat
}.

Definition to_dict (msg : Message.t) : msg_dict :=
  {| d_id := Message.msg_id msg;
     d_sender := Message.sender msg;
     d_text := Message.text msg;
     d_timestamp := Message.timestamp msg;
     d_type := Message.msg_type msg;
     d_photo_path :=
       if is_empty (Message.photo_path msg) then None
       else Some (Message.photo_path msg) |}.

(** [ChatManager.save_chat_history] *)
Definition save_chat_history (cm : t) (chat_id : pystr) : t :=
  match chats cm !! chat_id with
  | None => cm
  | Some history =>
      let is_group := bool_decide (is_Some (groups cm !! chat_id)) in
      let chat_type := if is_group then py "group" else py "private" in
      let character_id := if is_group then None else Some chat_id in
      let messages_data := map to_dict (lastn MAX_MESSAGES_IN_HISTORY history) in
      mk (characters cm) (groups cm) (chats cm)
         (<[chat_id :=
              {| f_chat_id := chat_id; f_chat_type := chat_type;
                 f_character_id := character_id;
                 f_messages := messages_data |}]> (files cm))
         (ticks cm)
  end.

Section Clock.

(** The [n]-th reading of the clock, as
    [f"msg_{int(datetime.now().timestamp() * 1000)}"] and as
    [datetime.now().isoformat()]. *)
Variable now_msg_id : nat -> pystr.
Variable now_isoformat : nat -> pystr.

(** [ChatManager.add_message] *)
Definition add_message (cm : t) (chat_id sender text msg_type photo_path : pystr)
    : t * Message.t :=
  let history := default [] (chats cm !! chat_id) in
  let msg :=
    Message.mk (now_msg_id (ticks cm)) sender text
               (now_isoformat (ticks cm)) msg_type photo_path in
  let cm1 :=
    mk (characters cm) (groups cm)
       (<[chat_id := history ++ [msg]]> (chats cm))
       (files cm) (S (ticks cm)) in
  (save_chat_history cm1 chat_id, msg).

End Clock.

(** [self.characters.get(m, Character(m, m, '', '', [])).name] *)
Definition name_of (cm : t) (m : pystr) : pystr :=
  match characters cm !! m with
  | Some c => Character.name c
  | None => m
  end.

(** The body of the [for msg in messages] loop of [build_prompt]. *)
Definition add_history_line (cm : t) (history_text : pystr) (msg : Message.t)
    : pystr :=
  if pystr_eqb (Message.msg_type msg) TEXT then
    let sender_name :=
      if pystr_eqb (Message.sender msg) USER then py "Пользователь"
      else name_of cm (Message.sender msg) in
    history_text ++ (sender_name ++ py ": " ++ Message.text msg ++ nl)
  else history_text.

(** [self.chats.get(chat_id, [])[-MAX_MESSAGES_FOR_API:]] *)
Definition api_window (cm : t) (chat_id : pystr) : list Message.t :=
  lastn MAX_MESSAGES_FOR_API (default [] (chats cm !! chat_id)).

Definition history_text (cm : t) (chat_id : pystr) : pystr :=
  fold_left (add_history_line cm) (api_window cm chat_id) [].

(** [ChatManager.build_prompt] *)
Definition build_prompt (cm : t) (chat_id : pystr) (character : Character.t)
    (is_group : bool) : result pystr :=
  let system_prompt :=
    if is_group then Character.group_prompt character
    else Character.private_prompt character in
  try! system_prompt :=
    (match is_group, groups cm !! chat_id with
     | true, Some group =>
         let members_names :=
           join (py ", ") (map (name_of cm) (Group.members group)) in
         format (group_kwargs (Group.name group) members_names) system_prompt
     | _, _ => Ok system_prompt
     end) in
  Ok (system_prompt ++ nl ++ nl ++ py "История переписки:" ++ nl
      ++ history_text cm chat_id ++ nl
      ++ py "Ответь на последнее сообщение.").

(** [ChatManager.get_chat_messages] *)
Definition get_chat_messages (cm : t) (chat_id : pystr) : list Message.t :=
  default [] (chats cm !! chat_id).

(** A message object of a chat file as [json.loads] returns it: each key
    is present or not. *)
Record raw_msg := {
  r_id : option pystr;
  r_sender : option pystr;
  r_text : option pystr;
  r_timestamp : option pystr;
  r_type : option pystr;
  r_photo_path : option pystr
}.

(** What [_load_chat_history] finds at [chats/<chat_id>.json]: no file, a
    file that is empty once stripped, a text that [json.loads] or the
    access to the top-level object rejects, or an object with its
    ['messages'] entry when it has one. *)
Inductive file_content :=
| NoFile
| Blank
| Malformed
| Document (messages : option (list raw_msg)).

(** The [Message(...)] built from one object: [msg_data['id']],
    [msg_data['sender']], [msg_data['timestamp']] and [msg_data['type']]
    raise [KeyError] when absent ([None] here), the text and the photo
    path default to the empty string. *)
Definition parse_message (r : raw_msg) : option Message.t :=
  match r_id r, r_sender r, r_timestamp r, r_type r with
  | Some i, Some s, Some ts, Some ty =>
      Some (Message.mk i s (default [] (r_text r)) ts ty
                       (default [] (r_photo_path r)))
  | _, _, _, _ => None
  end.

(** The [for msg_data in data.get('messages', [])] loop. *)
Fixpoint parse_messages (l : list raw_msg) : option (list Message.t) :=
  match l with
  | [] => Some []
  | r :: rest =>
      match parse_message r with
      | None => None
      | Some msg =>
          match parse_messages rest with
          | None => None
          | Some msgs => Some (msg :: msgs)
          end
      end
  end.

(** [ChatManager._load_chat_history]: every exception is caught and gives
    the empty list. *)
Definition _load_chat_history (content : file_content) : list Message.t :=
  match content with
  | Document messages => default [] (parse_messages (default [] messages))
  | NoFile | Blank | Malformed => []
  end.

(** The object that [json.loads] reads back from what [json.dump] wrote
    for one message. *)
Definition to_raw (d : msg_dict) : raw_msg :=
  {| r_id := Some (d_id d); r_sender := Some (d_sender d);
     r_text := Some (d_text d); r_timestamp := Some (d_timestamp d);
     r_type := Some (d_type d); r_photo_path := d_photo_path d |}.

(** The content of the file of a chat, as the next start of the program
    finds it. *)
Definition file_of (cm : t) (chat_id : pystr) : file_content :=
  match files cm !! chat_id with
  | Some data => Document (Some (map to_raw (f_messages data)))
  | None => NoFile
  end.

(** The record [create_group] writes to [groups/<group_id>.yml]. *)
Record group_yml := {
  y_id : pystr;
  y_name : pystr;
  y_members : list pystr;
  y_group_context : pystr
}.

Section Groups.

(** The [n]-th reading of the clock, as
    [f"group_{int(datetime.now().timestamp())}"]: whole seconds. *)
Variable now_group_id : nat -> pystr.

(** [ChatManager.create_group]: the new state, the id returned and the
    record written. *)
Definition create_group (cm : t) (name : pystr) (members : list pystr)
    : t * pystr * group_yml :=
  let group_id := now_group_id (ticks cm) in
  let group :=
    Group.mk group_id name members (py "Групповой чат '" ++ name ++ py "'") in
  (mk (characters cm) (<[group_id := group]> (groups cm))
      (<[group_id := []]> (chats cm)) (files cm) (S (ticks cm)),
   group_id,
   {| y_id := group_id; y_name := name; y_members := members;
      y_group_context := Group.group_context group |}).

End Groups.

End ChatManager.

Module ChatArea.

Section Turn.

Variable now_msg_id : nat -> pystr.
Variable now_isoformat : nat -> pystr.

(** [self.api_manager.send_message(prompt)]: it returns a string on
    every path (see [APIManager.send_message]). The first argument numbers
    the calls of the turn: the network may answer equal prompts
    differently. *)
Variable send_message : nat -> pystr -> pystr.

(** The [for member_id in group.members] loop. A raised exception
    leaves the loop: [build_prompt] is called outside the [try]. *)
Fixpoint group_loop (cm : ChatManager.t) (chat_id : pystr)
    (members : list pystr) (calls : nat) : ChatManager.t * result unit :=
  match members with
  | [] => (cm, Ok tt)
  | member_id :: rest =>
      match ChatManager.characters cm !! member_id with
      | None => group_loop cm chat_id rest calls
      | Some character =>
          match ChatManager.build_prompt cm chat_id character true with
          | Raise e => (cm, Raise e)
          | Unmodelled => (cm, Unmodelled)
          | Ok prompt =>
              let response := send_message calls prompt in
              if contains IGNORE response then group_loop cm chat_id rest (S calls)
              else
                let cm' :=
                  fst (ChatManager.add_message now_msg_id now_isoformat
                         cm chat_id member_id response TEXT []) in
                group_loop cm' chat_id rest (S calls)
          end
      end
  end.

(** [ChatArea.get_character_response], the body of the worker thread.
    [Ok tt] is a normal return. *)
Definition get_character_response (cm : ChatManager.t) (current_chat_id : pystr)
    : ChatManager.t * result unit :=
  match ChatManager.groups cm !! current_chat_id with
  | Some group => group_loop cm current_chat_id (Group.members group) 0
  | None =>
      match ChatManager.characters cm !! current_chat_id with
      | None => (cm, Ok tt)
      | Some character =>
          match ChatManager.build_prompt cm current_chat_id character false with
          | Raise e => (cm, Raise e)
          | Unmodelled => (cm, Unmodelled)
          | Ok prompt =>
              let response := send_message 0 prompt in
              (fst (ChatManager.add_message now_msg_id now_isoformat
                      cm current_chat_id current_chat_id response TEXT []),
               Ok tt)
          end
      end
  end.

End Turn.

(** [ChatArea.send_message]: [input] is the content of the entry field,
    the boolean tells whether the worker thread is started. *)
Definition send_message (now_msg_id now_isoformat : nat -> pystr)
    (cm : ChatManager.t) (current_chat_id : option pystr) (input : pystr)
    : ChatManager.t * bool :=
  match current_chat_id with
  | None => (cm, false)
  | Some chat_id =>
      if is_empty chat_id then (cm, false)
      else
        let text := strip input in
        if is_empty text then (cm, false)
        else
          (fst (ChatManager.add_message now_msg_id now_isoformat cm chat_id
                  USER text TEXT []),
           true)
  end.

End ChatArea.

(** ** ui/sidebar.py *)

Module Sidebar.

(** The [create_group] handler of [Sidebar.create_group_dialog]:
    [name_entry] is the content of the name field, [selected] the ids whose
    boxes are ticked. [None] is the warning box, with nothing created. *)
Definition create_group (now_group_id : nat -> pystr) (cm : ChatManager.t)
    (name_entry : pystr) (selected : list pystr)
    : option (ChatManager.t * pystr * ChatManager.group_yml) :=
  let group_name := strip name_entry in
  if is_empty group_name then None
  else if (length selected <? 2)%nat then None
  else Some (ChatManager.create_group now_group_id cm group_name selected).

End Sidebar.

(** ** Provider dispatch *)

(** What the dispatchers hand to a client library or to [requests.post]. *)
Inductive request :=
| AnthropicMessagesCreate (api_key model prompt : pystr) (max_tokens : Z) (temperature : Q)
| GeminiGenerateContent (api_key model prompt : pystr) (max_tokens : Z) (temperature : Q)
| RequestsPost (url : pystr) (headers : list (pystr * pystr))
    (model prompt : pystr) (max_tokens : Z) (temperature : Q)
| OpenAIChatCompletionsCreate (api_key base_url model prompt : pystr)
    (max_tokens : Z) (temperature : Q).

Inductive error_kind := RequestException | MissingKey | OtherException.

(** What comes back: the first text candidate; a response without one
    ([detail] is the text of the exception that reading it raises); or an
    exception with its [str(e)]. *)
Inductive reply :=
| Text (raw : pystr)
| NoContent (detail : pystr)
| Error (kind : error_kind) (detail : pystr).

(** An entry of [providers.yml], read with [.get('api', '')] and
    [.get('key', '')]. *)
Record provider_data := { api : pystr; key : pystr; models : list pystr }.

(** The optional client libraries, and the network. *)
Record environment := {
  anthropic_installed : bool;
  genai_installed : bool;
  openai_installed : bool;
  net : request -> reply
}.

(** A returned string together with the requests made, in order. *)
Definition traced : Type := pystr * list request.

Module MessengerAPI.

Import MessengerAPI_text.

(** The [api_settings] entry of a persona, each key optional. *)
Record api_settings := {
  provider : option pystr;
  model : option pystr;
  temperature : option Q;
  max_tokens : option Z
}.

Section Dispatch.

Variable env : environment.

Definition send_claude (prompt model api_key : pystr) (temperature : Q)
    (max_tokens : Z) : traced :=
  if negb (anthropic_installed env) then
    (py "Ошибка: Библиотека 'anthropic' не установлена. Выполните: pip install anthropic", [])
  else if is_empty api_key then (py "Ошибка: API-ключ для Claude не указан.", [])
  else
    let rq := AnthropicMessagesCreate api_key model prompt max_tokens temperature in
    (match net env rq with
     | Text raw => clean_text raw
     | NoContent _ => py "Ошибка: Claude вернул пустой ответ."
     | Error _ detail => py "Ошибка API Claude: " ++ detail
     end, [rq]).

Definition send_gemini (prompt model api_key : pystr) (temperature : Q)
    (max_tokens : Z) : traced :=
  if negb (genai_installed env) then
    (py "Ошибка: Библиотека 'google-generativeai' не установлена. Выполните: pip install google-generativeai", [])
  else if is_empty api_key then (py "Ошибка: API-ключ для Gemini не указан.", [])
  else
    let rq := GeminiGenerateContent api_key model prompt max_tokens temperature in
    (match net env rq with
     | Text raw => clean_text raw
     | NoContent _ => py "Ошибка: Gemini вернул неожиданный формат ответа."
     | Error _ detail => py "Ошибка API Gemini: " ++ detail
     end, [rq]).

(** [send_openrouter] catches [requests.RequestException] and
    [KeyError] only: [inr detail] is any other exception, on its way to
    the handler of [send_message]. *)
Definition send_openrouter (prompt model api_url api_key : pystr)
    (temperature : Q) (max_tokens : Z) : (pystr + pystr) * list request :=
  let headers :=
    [(py "Authorization", py "Bearer " ++ api_key);
     (py "Content-Type", py "application/json");
     (py "HTTP-Referer", py "http://localhost:5000");
     (py "X-Title", py "AI Messenger")] in
  let rq := RequestsPost api_url headers model prompt max_tokens temperature in
  (match net env rq with
   | Text raw => inl (clean_text raw)
   | NoContent _ => inl (clean_text [])
   | Error RequestException detail => inl (py "Ошибка API OpenRouter: " ++ detail)
   | Error MissingKey _ => inl (py "Ошибка: неверный формат ответа от OpenRouter.")
   | Error OtherException detail => inr detail
   end, [rq]).

Definition send_chutes (prompt model api_url api_key : pystr)
    (temperature : Q) (max_tokens : Z) : traced :=
  let headers :=
    [(py "Authorization", py "Bearer " ++ api_key);
     (py "Content-Type", py "application/json")] in
  let rq := RequestsPost api_url headers model prompt max_tokens temperature in
  (match net env rq with
   | Text raw => clean_text raw
   | NoContent _ => clean_text []
   | Error _ detail => py "Ошибка API Chutes: " ++ detail
   end, [rq]).

Definition send_deepseek (prompt model api_url api_key : pystr)
    (temperature : Q) (max_tokens : Z) : traced :=
  if negb (openai_installed env) then
    (py "Ошибка: Библиотека 'openai' не установлена. Выполните: pip install openai", [])
  else
    let rq :=
      OpenAIChatCompletionsCreate api_key api_url (py "deepseek-chat") prompt
        max_tokens temperature in
    (match net env rq with
     | Text raw => clean_text raw
     | NoContent _ => clean_text []
     | Error _ detail => py "Ошибка API DeepSeek: " ++ detail
     end, [rq]).

(** [MessengerAPI.send_message]; [settings] is
    [character_config.get('api_settings', {})]. *)
Definition send_message (config : gmap pystr provider_data) (prompt : pystr)
    (settings : api_settings) : traced :=
  let provider := default (py "claude") (provider settings) in
  let model := default [] (model settings) in
  let temperature := default (7 # 10)%Q (temperature settings) in
  let max_tokens := default 300%Z (max_tokens settings) in
  match config !! provider with
  | None =>
      (py "Ошибка: Провайдер '" ++ provider ++ py "' не найден в конфигурации.", [])
  | Some provider_data =>
      let api_url := api provider_data in
      let api_key := key provider_data in
      if pystr_eqb provider (py "claude") then
        send_claude prompt model api_key temperature max_tokens
      else if pystr_eqb provider (py "gemini") then
        send_gemini prompt model api_key temperature max_tokens
      else if pystr_eqb provider (py "openrouter") then
        match send_openrouter prompt model api_url api_key temperature max_tokens with
        | (inl response, calls) => (response, calls)
        | (inr detail, calls) => (py "Ошибка API: " ++ detail, calls)
        end
      else if pystr_eqb provider (py "chutes") then
        send_chutes prompt model api_url api_key temperature max_tokens
      else if pystr_eqb provider (py "deepseek") then
        send_deepseek prompt model api_url api_key temperature max_tokens
      else (py "Ошибка: Провайдер '" ++ provider ++ py "' не поддерживается.", [])
  end.

End Dispatch.

End MessengerAPI.

Module APIManager.

Import APIManager_text.

Record t := {
  config : gmap pystr provider_data;
  current_provider : option pystr;
  current_model : option pystr
}.

(** [self.config.get(self.current_provider, {})], whose missing keys read
    as empty strings. *)
Definition provider_data_of (am : t) (provider : pystr) : provider_data :=
  default {| api := []; key := []; models := [] |} (config am !! provider).

Definition set_provider_and_model (am : t) (provider model : pystr) : t :=
  {| config := config am;
     current_provider := Some provider;
     current_model := Some model |}.

Section Dispatch.

Variable env : environment.

Definition _send_claude (model prompt api_key : pystr) (temperature : Q)
    (max_tokens : Z) : traced :=
  if negb (anthropic_installed env) then
    (py "Ошибка Claude: No module named 'anthropic'", [])
  else
    let rq := AnthropicMessagesCreate api_key model prompt max_tokens temperature in
    (match net env rq with
     | Text raw => _clean_text raw
     | NoContent detail | Error _ detail => py "Ошибка Claude: " ++ detail
     end, [rq]).

Definition _send_gemini (model prompt api_key : pystr) (temperature : Q)
    (max_tokens : Z) : traced :=
  if negb (genai_installed env) then
    (py "Ошибка Gemini: No module named 'google'", [])
  else
    let rq := GeminiGenerateContent api_key model prompt max_tokens temperature in
    (match net env rq with
     | Text raw => _clean_text raw
     | NoContent detail | Error _ detail => py "Ошибка Gemini: " ++ detail
     end, [rq]).

Definition _send_openai_compatible (model prompt api_url api_key : pystr)
    (temperature : Q) (max_tokens : Z) : traced :=
  let headers :=
    [(py "Authorization", py "Bearer " ++ api_key);
     (py "Content-Type", py "application/json")] in
  let rq := RequestsPost api_url headers model prompt max_tokens temperature in
  (match net env rq with
   | Text raw => _clean_text raw
   | NoContent _ => _clean_text []
   | Error _ detail => py "Ошибка API: " ++ detail
   end, [rq]).

Definition _send_deepseek (prompt api_url api_key : pystr) (temperature : Q)
    (max_tokens : Z) : traced :=
  if negb (openai_installed env) then
    (py "Ошибка DeepSeek: No module named 'openai'", [])
  else
    let rq :=
      OpenAIChatCompletionsCreate api_key api_url (py "deepseek-chat") prompt
        max_tokens temperature in
    (match net env rq with
     | Text raw => _clean_text raw
     | NoContent _ => _clean_text []
     | Error _ detail => py "Ошибка DeepSeek: " ++ detail
     end, [rq]).

(** [APIManager.send_message] *)
Definition send_message (am : t) (prompt : pystr) (temperature : Q)
    (max_tokens : Z) : traced :=
  match current_provider am, current_model am with
  | Some provider, Some model =>
      if is_empty provider || is_empty model then
        (py "Ошибка: Провайдер или модель не выбраны", [])
      else
        let provider_data := provider_data_of am provider in
        let api_key := key provider_data in
        if pystr_eqb provider (py "claude") then
          _send_claude model prompt api_key temperature max_tokens
        else if pystr_eqb provider (py "gemini") then
          _send_gemini model prompt api_key temperature max_tokens
        else if existsb (pystr_eqb provider)
                  [py "openrouter"; py "chutes"; py "featherless"; py "moonshot"] then
          _send_openai_compatible model prompt (api provider_data) api_key
            temperature max_tokens
        else if pystr_eqb provider (py "deepseek") then
          _send_deepseek prompt (api provider_data) api_key temperature max_tokens
        else (py "Провайдер " ++ provider ++ py " не поддерживается", [])
  | _, _ => (py "Ошибка: Провайдер или модель не выбраны", [])
  end.

End Dispatch.

(** [APIManager.get_models] *)
Definition get_models (am : t) (provider : pystr) : list pystr :=
  models (provider_data_of am provider).

(** The selection made by [MainWindow.__init__]; [providers] is
    [get_providers()], the registered names in the order of the file. *)
Definition select_default (am : t) (providers : list pystr) : t :=
  match providers with
  | [] => am
  | provider :: _ =>
      match get_models am provider with
      | [] => am
      | model :: _ => set_provider_and_model am provider model
      end
  end.

(** [SettingsPanel.apply_settings] with the values of the two boxes. *)
Definition apply_settings (am : t) (provider model : pystr) : t :=
  if is_empty provider || is_empty model then am
  else set_provider_and_model am provider model.

End APIManager.

(** ** messenger_app.py *)

Module MessengerApp.

Definition CHARACTERS_DIR : pystr := py "characters".

(** A persona as loaded from [character.yml]; [name] is read with a
    default, the prompts and the photo list default to empty. *)
Record char_data := {
  id : pystr;
  name : option pystr;
  private_prompt : pystr;
  group_prompt : pystr;
  photos : list photo;
  api_settings : MessengerAPI.api_settings
}.

(** A group as loaded from [groups/*.yml]. *)
Record group_data := {
  g_id : pystr;
  g_name : pystr;
  g_members : list pystr
}.

(** A message dictionary: text messages carry ['text'], photo messages
    carry ['photo_path']. *)
Record msg := {
  m_id : pystr;
  m_sender : pystr;
  m_text : option pystr;
  m_timestamp : pystr;
  m_type : pystr;
  m_photo_path : option pystr
}.

(** The content of [chats_1/<chat_id>.json]. *)
Record chat_data := {
  f_chat_id : pystr;
  f_chat_type : pystr;
  f_character_id : option pystr;
  f_messages : list msg
}.

(** The application state a turn reads and writes. [current_chat_id] is
    a string while a worker runs: [send_message] returns before starting
    one when no chat is open. [slept] counts the seconds spent in
    [time.sleep]. *)
Record t := mk {
  characters : gmap pystr char_data;
  groups : gmap pystr group_data;
  chats : gmap pystr (list msg);
  current_chat_id : pystr;
  typing_indicators : gmap pystr bool;
  files : gmap pystr chat_data;
  ticks : nat;
  slept : nat
}.

Definition set_chats (st : t) (c : gmap pystr (list msg)) : t :=
  mk (characters st) (groups st) c (current_chat_id st)
     (typing_indicators st) (files st) (ticks st) (slept st).

Definition set_typing (st : t) (b : bool) : t :=
  mk (characters st) (groups st) (chats st) (current_chat_id st)
     (<[current_chat_id st := b]> (typing_indicators st))
     (files st) (ticks st) (slept st).

Definition tick (st : t) : t :=
  mk (characters st) (groups st) (chats st) (current_chat_id st)
     (typing_indicators st) (files st) (S (ticks st)) (slept st).

(** [time.sleep(1)] *)
Definition sleep1 (st : t) : t :=
  mk (characters st) (groups st) (chats st) (current_chat_id st)
     (typing_indicators st) (files st) (ticks st) (S (slept st)).

Definition show_typing_indicator (st : t) : t := set_typing st true.
Definition hide_typing_indicator (st : t) : t := set_typing st false.

(** [MessengerApp.save_chat_history] *)
Definition save_chat_history (st : t) (chat_id : pystr) : t :=
  let is_group := bool_decide (is_Some (groups st !! chat_id)) in
  let data :=
    {| f_chat_id := chat_id;
       f_chat_type := if is_group then py "group" else py "private";
       f_character_id := if is_group then None else Some chat_id;
       f_messages := lastn MAX_MESSAGES_IN_HISTORY (default [] (chats st !! chat_id)) |} in
  mk (characters st) (groups st) (chats st) (current_chat_id st)
     (typing_indicators st) (<[chat_id := data]> (files st)) (ticks st) (slept st).

(** [self.chats[self.current_chat_id].append(message)] *)
Definition append_current (st : t) (message : msg) : result t :=
  match chats st !! current_chat_id st with
  | Some history =>
      Ok (set_chats st (<[current_chat_id st := history ++ [message]]> (chats st)))
  | None => Raise (KeyError (current_chat_id st))
  end.

(** [self.characters.get(m, {}).get('name', m)] *)
Definition name_of (st : t) (m : pystr) : pystr :=
  match characters st !! m with
  | Some c => default m (name c)
  | None => m
  end.

Definition sender_name (st : t) (message : msg) : pystr :=
  if pystr_eqb (m_sender message) USER then py "Пользователь"
  else name_of st (m_sender message).

(** The body of the [for msg in recent_messages] loop; [msg['text']]
    raises when the key is absent. *)
Definition add_history_line (st : t) (history_text : result pystr) (message : msg)
    : result pystr :=
  try! history_text := history_text in
  if pystr_eqb (m_type message) TEXT then
    match m_text message with
    | Some body => Ok (history_text ++ (sender_name st message ++ py ": " ++ body ++ nl))
    | None => Raise (KeyError TEXT)
    end
  else if pystr_eqb (m_type message) PHOTO then
    Ok (history_text ++ (sender_name st message ++ py ": [отправил(а) фото]" ++ nl))
  else Ok history_text.

(** [self.chats.get(self.current_chat_id, [])[-MAX_MESSAGES_FOR_API:]] *)
Definition recent_messages (st : t) : list msg :=
  lastn MAX_MESSAGES_FOR_API (default [] (chats st !! current_chat_id st)).

Definition history_text (st : t) : result pystr :=
  fold_left (add_history_line st) (recent_messages st) (Ok []).

(** [MessengerApp.build_prompt] *)
Definition build_prompt (st : t) (character : char_data) (chat_type : pystr)
    (group_context : option group_data) : result pystr :=
  try! system_prompt :=
    (if pystr_eqb chat_type (py "private") then Ok (private_prompt character)
     else
       match group_context with
       | Some group =>
           let members := join (py ", ") (map (name_of st) (g_members group)) in
           format (group_kwargs (g_name group) members) (group_prompt character)
       | None => Ok (group_prompt character)
       end) in
  try! history_text := history_text st in
  Ok (system_prompt ++ nl ++ nl ++ py "История переписки:" ++ nl
      ++ history_text ++ nl ++ nl
      ++ py "Ответь на последнее сообщение пользователя естественно и по характеру персонажа.").

(** [posixpath.join] *)
Definition path_join2 (path b : pystr) : pystr :=
  if startswith (py "/") b then b
  else if is_empty path || startswith (py "/") (rev path) then path ++ b
  else path ++ py "/" ++ b.

Definition path_join (a : pystr) (p : list pystr) : pystr := fold_left path_join2 p a.

Section Turn.

(** [str.isalnum] above the ASCII range, from the Unicode database. *)
Variable unicode_alnum : N -> bool.
(** [os.path.exists] *)
Variable path_exists : pystr -> bool.
(** The [n]-th reading of the clock, as [f"msg_{int(time.time() * 1000)}"]
    and as [datetime.now().isoformat()]. *)
Variable now_msg_id : nat -> pystr.
Variable now_isoformat : nat -> pystr.
(** [self.api.send_message(prompt, character)]: a string on every path
    (see [MessengerAPI.send_message]). The first argument numbers the calls
    of the turn: the network may answer equal prompts differently. *)
Variable api_send_message : nat -> pystr -> char_data -> pystr.

(** A character matched by [\w]. *)
Definition is_word (c : N) : bool :=
  if c <? 128 then
    is_ascii_digit c || ((65 <=? c) && (c <=? 90)) || ((97 <=? c) && (c <=? 122))
    || (c =? 95)
  else unicode_alnum c.

(** The longest run of word characters at the head of [text], and what
    follows it. *)
Fixpoint word_span (text : pystr) : pystr * pystr :=
  match text with
  | [] => ([], [])
  | c :: rest =>
      if is_word c then
        let '(w, after) := word_span rest in (c :: w, after)
      else ([], text)
  end.

(** A match of [\[PHOTO:(\w+)\]] starting at the head of [text]: the
    closing bracket is no word character, so the group is the whole
    run. *)
Definition match_photo_here (text : pystr) : option pystr :=
  if startswith (py "[PHOTO:") text then
    let '(w, after) := word_span (drop 7 text) in
    if is_empty w then None
    else if startswith (py "]") after then Some w else None
  else None.

(** [re.search(r'\[PHOTO:(\w+)\]', text)], then [match.group(1)]. *)
Fixpoint search_photo (text : pystr) : option pystr :=
  match match_photo_here text with
  | Some w => Some w
  | None =>
      match text with
      | [] => None
      | _ :: rest => search_photo rest
      end
  end.

(** The [for photo in photos] loop with its [break]. *)
Fixpoint find_photo (character : char_data) (photo_filename : pystr)
    (l : list photo) : option pystr :=
  match l with
  | [] => None
  | p :: rest =>
      if contains photo_filename (filename p) then
        Some (path_join CHARACTERS_DIR [id character; py "photos"; filename p])
      else find_photo character photo_filename rest
  end.

(** [MessengerApp.send_character_photo] *)
Definition send_character_photo (st : t) (character : char_data)
    (photo_filename sender_id : pystr) : result t :=
  match find_photo character photo_filename (photos character) with
  | None => Ok st
  | Some photo_path =>
      if is_empty photo_path || negb (path_exists photo_path) then Ok st
      else
        let photo_message :=
          {| m_id := now_msg_id (ticks st); m_sender := sender_id;
             m_text := None; m_timestamp := now_isoformat (ticks st);
             m_type := PHOTO; m_photo_path := Some photo_path |} in
        try! st1 := append_current (tick st) photo_message in
        Ok (save_chat_history st1 (current_chat_id st1))
  end.

(** [MessengerApp.process_character_response] *)
Definition process_character_response (st : t) (response_text : pystr)
    (character : char_data) (sender_id : pystr) : result t :=
  match (if contains (py "[PHOTO:") response_text
         then search_photo response_text else None) with
  | Some photo_filename =>
      send_character_photo st character photo_filename sender_id
  | None =>
      let char_message :=
        {| m_id := now_msg_id (ticks st); m_sender := sender_id;
           m_text := Some response_text; m_timestamp := now_isoformat (ticks st);
           m_type := TEXT; m_photo_path := None |} in
      try! st1 := append_current (tick st) char_message in
      Ok (save_chat_history st1 (current_chat_id st1))
  end.

(** The [for member_id in members] loop of [handle_group_response].
    [build_prompt] runs outside the [try]; what the [try] catches is
    printed and the loop goes on. *)
Fixpoint group_loop (st : t) (group : group_data) (members : list pystr)
    (calls : nat) : t * result unit :=
  match members with
  | [] => (st, Ok tt)
  | member_id :: rest =>
      match characters st !! member_id with
      | None => group_loop st group rest calls
      | Some character =>
          match build_prompt st character (py "group") (Some group) with
          | Raise e => (st, Raise e)
          | Unmodelled => (st, Unmodelled)
          | Ok prompt =>
              let response_text := api_send_message calls prompt character in
              if contains IGNORE response_text then group_loop st group rest (S calls)
              else
                let st1 := sleep1 st in
                match process_character_response st1 response_text character member_id with
                | Ok st2 => group_loop st2 group rest (S calls)
                | Raise _ => group_loop st1 group rest (S calls)
                | Unmodelled => (st1, Unmodelled)
                end
          end
      end
  end.

(** [MessengerApp.handle_group_response] *)
Definition handle_group_response (st : t) : t * result unit :=
  match groups st !! current_chat_id st with
  | None => (st, Ok tt)
  | Some group => group_loop st group (g_members group) 0
  end.

(** [str(e)] of a [KeyError] is the [repr] of its key; written here for
    keys without quotes, backslashes or unprintable characters. *)
Definition str_exn (e : exn) : pystr :=
  match e with
  | KeyError k => py "'" ++ k ++ py "'"
  | IndexError => py "Replacement index 0 out of range for positional args tuple"
  | ValueError msg => msg
  end.

(** [MessengerApp.handle_private_response] *)
Definition handle_private_response (st : t) : t * result unit :=
  match characters st !! current_chat_id st with
  | None => (st, Ok tt)
  | Some character =>
      match build_prompt st character (py "private") None with
      | Raise e => (st, Raise e)
      | Unmodelled => (st, Unmodelled)
      | Ok prompt =>
          let response_text := api_send_message 0 prompt character in
          match process_character_response st response_text character
                  (current_chat_id st) with
          | Ok st1 => (st1, Ok tt)
          | Unmodelled => (st, Unmodelled)
          | Raise e =>
              let error_msg :=
                {| m_id := now_msg_id (ticks st); m_sender := current_chat_id st;
                   m_text := Some (py "[Ошибка API: " ++ str_exn e ++ py "]");
                   m_timestamp := now_isoformat (ticks st);
                   m_type := TEXT; m_photo_path := None |} in
              match append_current (tick st) error_msg with
              | Ok st1 => (st1, Ok tt)
              | Raise e' => (st, Raise e')
              | Unmodelled => (st, Unmodelled)
              end
          end
      end
  end.

(** [MessengerApp.get_character_response], the body of the worker
    thread: the indicator is hidden when the handler returns. *)
Definition get_character_response (st : t) : t * result unit :=
  let st := show_typing_indicator st in
  let '(st, r) :=
    if bool_decide (is_Some (groups st !! current_chat_id st))
    then handle_group_response st
    else handle_private_response st in
  match r with
  | Ok _ => (hide_typing_indicator st, Ok tt)
  | _ => (st, r)
  end.

(** [MessengerApp.send_message]: [input] is the content of the entry
    field, the boolean tells whether the worker thread is started. *)
Definition send_message (st : t) (input : pystr) : t * bool :=
  if is_empty (current_chat_id st) then (st, false)
  else
    let text := strip input in
    if is_empty text then (st, false)
    else
      let user_message :=
        {| m_id := now_msg_id (ticks st); m_sender := USER;
           m_text := Some text; m_timestamp := now_isoformat (ticks st);
           m_type := TEXT; m_photo_path := None |} in
      let history := default [] (chats st !! current_chat_id st) in
      let st1 :=
        set_chats (tick st)
          (<[current_chat_id st := history ++ [user_message]]> (chats st)) in
      (save_chat_history st1 (current_chat_id st1), true).

(** [MessengerApp.get_last_message_preview] *)
Definition get_last_message_preview (st : t) (chat_id : pystr) : result pystr :=
  match last (default [] (chats st !! chat_id)) with
  | None => Ok (py "Нет сообщений")
  | Some last_msg =>
      if pystr_eqb (m_type last_msg) TEXT then
        match m_text last_msg with
        | Some text =>
            Ok (if (40 <? length text)%nat then take 40 text ++ py "..." else text)
        | None => Raise (KeyError TEXT)
        end
      else if pystr_eqb (m_type last_msg) PHOTO then Ok (py "📷 Фото")
      else Ok []
  end.

End Turn.

End MessengerApp.

(** ** Notions used to state the properties *)

(** The prefix that [split] keeps ends where the first occurrence of the
    tag starts. *)
Definition first_cut (tag text pre : pystr) : Prop :=
  (exists rest, text = pre ++ tag ++ rest) /\
  forall pre' rest', text = pre' ++ tag ++ rest' -> (length pre <= length pre')%nat.

(** The head of a stripped text is no white space. *)
Definition clean_head (text : pystr) : Prop :=
  match text with
  | [] => True
  | c :: _ => isspace c = false
  end.

(** A field name the formatter looks up among the keyword arguments: not
    empty, free of braces and of the characters that start a conversion, a
    format spec, an attribute or an index, and not a number. *)
Definition plain_key (name : pystr) : bool :=
  negb (is_empty name)
  && forallb (fun c => negb (is_special c || (c =? RBRACE))) name
  && negb (forallb (fun c => is_ascii_digit c || (128 <=? c)) name).

(** A template part that formats without fault whatever the group. *)
Definition known_only (pre : pystr) : Prop :=
  forall group_name members,
    exists s, format (group_kwargs group_name members) pre = Ok s.

(** A message handed to [ChatManager.add_message]. *)
Record new_message := {
  n_sender : pystr;
  n_text : pystr;
  n_type : pystr;
  n_photo_path : pystr
}.


(** The messages those calls create, the first at clock reading [t]. *)
Fixpoint stamp (now_msg_id now_isoformat : nat -> pystr) (t : nat)
    (inputs : list new_message) : list Message.t :=
  match inputs with
  | [] => []
  | i :: rest =>
      Message.mk (now_msg_id t) (n_sender i) (n_text i) (now_isoformat t)
                 (n_type i) (n_photo_path i)
      :: stamp now_msg_id now_isoformat (S t) rest
  end.

(** The ASCII part of [\w]. *)
Definition is_ascii_word (c : N) : bool :=
  is_ascii_digit c || ((65 <=? c) && (c <=? 90)) || ((97 <=? c) && (c <=? 122))
  || (c =? 95).

(** The text of a photo directive: [[PHOTO:<token>]]. *)
Definition directive (token : pystr) : pystr := py "[PHOTO:" ++ token ++ py "]".


(** What [ChatManager.save_chat_history] writes for a chat whose history is
    [history]. *)
Definition saved (groups : gmap pystr Group.t) (chat_id : pystr)
    (history : list Message.t) : ChatManager.chat_data :=
  let is_group := bool_decide (is_Some (groups !! chat_id)) in
  {| ChatManager.f_chat_id := chat_id;
     ChatManager.f_chat_type := if is_group then py "group" else py "private";
     ChatManager.f_character_id := if is_group then None else Some chat_id;
     ChatManager.f_messages :=
       map ChatManager.to_dict (lastn MAX_MESSAGES_IN_HISTORY history) |}.

(** The line [ChatManager.build_prompt] writes for one message. *)
Definition history_line (cm : ChatManager.t) (msg : Message.t) : pystr :=
  ChatManager.add_history_line cm [] msg.

(** [out] put in front of a formatted text. *)
Definition prepend (out : pystr) (r : result pystr) : result pystr :=
  match r with
  | Ok s => Ok (out ++ s)
  | Raise e => Raise e
  | Unmodelled => Unmodelled
  end.

(** A text without braces. *)
Definition brace_free (text : pystr) : bool :=
  forallb (fun c => negb ((c =? LBRACE) || (c =? RBRACE))) text.

(** What follows the system prompt in the result of
    [ChatManager.build_prompt]. *)
Definition prompt_tail (cm : ChatManager.t) (chat_id : pystr) : pystr :=
  nl ++ nl ++ py "История переписки:" ++ nl
  ++ ChatManager.history_text cm chat_id ++ nl
  ++ py "Ответь на последнее сообщение.".

(** The message [_load_chat_history] builds from an object of the file
    that has the four keys it needs. *)
Definition loaded_message (r : ChatManager.raw_msg) : Message.t :=
  Message.mk (default [] (ChatManager.r_id r)) (default [] (ChatManager.r_sender r))
             (default [] (ChatManager.r_text r))
             (default [] (ChatManager.r_timestamp r))
             (default [] (ChatManager.r_type r))
             (default [] (ChatManager.r_photo_path r)).

(** What storing a message keeps: everything but the histories, the files
    and the clock. *)
Definition same_frame (st st' : MessengerApp.t) : Prop :=
  MessengerApp.characters st' = MessengerApp.characters st /\
  MessengerApp.groups st' = MessengerApp.groups st /\
  MessengerApp.current_chat_id st' = MessengerApp.current_chat_id st /\
  MessengerApp.typing_indicators st' = MessengerApp.typing_indicators st /\
  forall other,
    other = MessengerApp.current_chat_id st \/
    MessengerApp.chats st' !! other = MessengerApp.chats st !! other.

(** The message a reply can become: a text message carrying the reply, or
    a photo message whose file exists. *)
Definition reply_message (path_exists : pystr -> bool) (sender response : pystr)
    (m : MessengerApp.msg) : Prop :=
  MessengerApp.m_sender m = sender /\
  ((MessengerApp.m_type m = TEXT /\ MessengerApp.m_text m = Some response) \/
   (MessengerApp.m_type m = PHOTO /\
    exists path, MessengerApp.m_photo_path m = Some path /\ path_exists path = true)).

(** The provider selected in an [APIManager], if any, is registered. *)
Definition selection_registered (am : APIManager.t) : Prop :=
  match APIManager.current_provider am with
  | Some provider => is_Some (APIManager.config am !! provider)
  | None => True
  end.


(** A path component without a slash at its head. *)
Definition relative (component : pystr) : bool := negb (startswith (py "/") component).


(** What a request carries of the call that made it. *)
Definition request_prompt (rq : request) : pystr :=
  match rq with
  | AnthropicMessagesCreate _ _ prompt _ _ | GeminiGenerateContent _ _ prompt _ _
  | RequestsPost _ _ _ prompt _ _ | OpenAIChatCompletionsCreate _ _ _ prompt _ _ => prompt
  end.

Definition request_model (rq : request) : pystr :=
  match rq with
  | AnthropicMessagesCreate _ model _ _ _ | GeminiGenerateContent _ model _ _ _
  | RequestsPost _ _ model _ _ _ | OpenAIChatCompletionsCreate _ _ model _ _ _ => model
  end.

Definition request_limits (rq : request) : Z * Q :=
  match rq with
  | AnthropicMessagesCreate _ _ _ max_tokens temperature
  | GeminiGenerateContent _ _ _ max_tokens temperature
  | RequestsPost _ _ _ _ max_tokens temperature
  | OpenAIChatCompletionsCreate _ _ _ _ max_tokens temperature =>
      (max_tokens, temperature)
  end.

(** The client library a provider is reached through, if it needs one. *)
Definition client_installed (env : environment) (provider : pystr) : bool :=
  if pystr_eqb provider (py "claude") then anthropic_installed env
  else if pystr_eqb provider (py "gemini") then genai_installed env
  else if pystr_eqb provider (py "deepseek") then openai_installed env
  else true.

(** The settings of a persona with another model. *)
Definition with_model (settings : MessengerAPI.api_settings) (model : option pystr)
    : MessengerAPI.api_settings :=
  {| MessengerAPI.provider := MessengerAPI.provider settings;
     MessengerAPI.model := model;
     MessengerAPI.temperature := MessengerAPI.temperature settings;
     MessengerAPI.max_tokens := MessengerAPI.max_tokens settings |}.

(** A path component without a slash at its end. *)
Definition no_trailing_slash (component : pystr) : bool :=
  negb (startswith (py "/") (rev component)).

(** ** Sample data *)

Module Sample.

(** Decimal digits of [n], at most [fuel] of them. *)
Fixpoint digits (fuel : nat) (n : N) : pystr :=
  match fuel with
  | O => []
  | S fuel' => (if n <? 10 then [] else digits fuel' (n / 10)) ++ [48 + n mod 10]
  end.

(** A clock that advances by one millisecond per reading. *)
Definition clock_id (n : nat) : pystr :=
  py "msg_" ++ digits 20 (1761220800000 + N.of_nat n).
Definition clock_iso (n : nat) : pystr :=
  py "2025-10-23T12:00:00." ++ digits 20 (1000 + N.of_nat n).

Definition photo_msg : Message.t :=
  Message.mk (py "msg_1") (py "alice") [] (py "2025-10-23T12:00:00") PHOTO
             (py "characters/alice/photos/smile_01.png").

Definition alice : Character.t :=
  Character.mk (py "alice") (py "Alice") (py "You are Alice.")
               (py "Chat {group_name}: {foo}")
               [{| filename := py "smile_01.png" |}].

Definition bob : Character.t :=
  Character.mk (py "bob") (py "Bob") (py "You are Bob.")
               (py "Chat {group_name} with {members}") [].

Definition team (members : list pystr) : Group.t :=
  Group.mk (py "g1") (py "Team") members (py "").

(** A manager with the personas, one group and the given histories. *)
Definition manager (members : list pystr)
    (chats : gmap pystr (list Message.t)) : ChatManager.t :=
  ChatManager.mk
    (<[py "alice" := alice]> (<[py "bob" := bob]> ∅))
    (<[py "g1" := team members]> ∅)
    chats ∅ 0.

Definition no_settings : MessengerAPI.api_settings :=
  {| MessengerAPI.provider := None; MessengerAPI.model := None;
     MessengerAPI.temperature := None; MessengerAPI.max_tokens := None |}.

Definition alice_data : MessengerApp.char_data :=
  {| MessengerApp.id := py "alice"; MessengerApp.name := Some (py "Alice");
     MessengerApp.private_prompt := py "You are Alice.";
     MessengerApp.group_prompt := py "Chat {group_name}: {foo}";
     MessengerApp.photos := [{| filename := py "smile_01.png" |}];
     MessengerApp.api_settings := no_settings |}.

Definition bob_data : MessengerApp.char_data :=
  {| MessengerApp.id := py "bob"; MessengerApp.name := Some (py "Bob");
     MessengerApp.private_prompt := py "You are Bob.";
     MessengerApp.group_prompt := py "Chat {group_name} with {members}";
     MessengerApp.photos := [];
     MessengerApp.api_settings := no_settings |}.

Definition team_data (members : list pystr) : MessengerApp.group_data :=
  {| MessengerApp.g_id := py "g1"; MessengerApp.g_name := py "Team";
     MessengerApp.g_members := members |}.

Definition photo_dict : MessengerApp.msg :=
  {| MessengerApp.m_id := py "msg_1"; MessengerApp.m_sender := py "alice";
     MessengerApp.m_text := None;
     MessengerApp.m_timestamp := py "2025-10-23T12:00:00";
     MessengerApp.m_type := PHOTO;
     MessengerApp.m_photo_path := Some (py "characters/alice/photos/smile_01.png") |}.

(** The application with the chat [current] open. *)
Definition app (current : pystr) (members : list pystr)
    (chats : gmap pystr (list MessengerApp.msg)) : MessengerApp.t :=
  MessengerApp.mk
    (<[py "alice" := alice_data]> (<[py "bob" := bob_data]> ∅))
    (<[py "g1" := team_data members]> ∅)
    chats current ∅ ∅ 0 0.

(** No character above the ASCII range counts as alphanumeric. *)
Definition ascii_only (c : N) : bool := false.

(** A network that answers every request with ["hi"], all libraries
    installed. *)
Definition online : environment :=
  {| anthropic_installed := true; genai_installed := true;
     openai_installed := true; net := fun _ => Text (py "hi") |}.

Definition unconfigured (provider : pystr) : APIManager.t :=
  {| APIManager.config := ∅;
     APIManager.current_provider := Some provider;
     APIManager.current_model := Some (py "m") |}.


End Sample.

(** * Properties *)

(** Closed goals about sample data are settled by evaluation. *)
Ltac by_evaluation := vm_compute; first [reflexivity | discriminate].

Create HintDb cleaner.

(** ** Substrings, prefixes and stripping *)

Lemma startswith_iff (tag text : pystr) :
  startswith tag text = true <-> exists rest, text = tag ++ rest.
Proof.
  revert text. induction tag as [|a tag IH]; intros text; simpl.
  - split; eauto.
  - destruct text as [|b text].
    + split; [discriminate | intros [rest H]; discriminate].
    + rewrite andb_true_iff, N.eqb_eq, IH. split.
      * intros [-> [rest ->]]. eauto.
      * intros [rest H]. injection H as -> ->. eauto.
Qed.

Lemma contains_iff (tag text : pystr) :
  contains tag text = true <-> exists pre rest, text = pre ++ tag ++ rest.
Proof.
  induction text as [|c text IH]; simpl.
  - rewrite orb_false_r, startswith_iff. split.
    + intros [rest H]. exists [], rest. exact H.
    + intros (pre & rest & H). destruct pre; simpl in H; [eauto | discriminate].
  - rewrite orb_true_iff, startswith_iff, IH. split.
    + intros [[rest H] | (pre & rest & ->)].
      * exists [], rest. exact H.
      * exists (c :: pre), rest. reflexivity.
    + intros (pre & rest & H). destruct pre as [|p pre]; simpl in H.
      * left. eauto.
      * right. injection H as _ ->. eauto.
Qed.

(** A text without [tag] has no part with [tag]. *)
Lemma contains_false_part (tag pre mid rest : pystr) :
  contains tag (pre ++ mid ++ rest) = false -> contains tag mid = false.
Proof.
  intros H. destruct (contains tag mid) eqn:E; [|reflexivity].
  apply contains_iff in E as (a & b & ->).
  rewrite <- H. symmetry. apply contains_iff.
  exists (pre ++ a), (b ++ rest). now rewrite <- !app_assoc.
Qed.

Lemma contains_false_prefix (tag text k : pystr) :
  contains tag (text ++ k) = false -> contains tag text = false.
Proof. intros H. apply (contains_false_part tag [] text k). exact H. Qed.

Lemma split_head_prefix (tag text : pystr) :
  exists k, text = split_head tag text ++ k.
Proof.
  induction text as [|c text [k IH]]; simpl.
  - destruct (startswith tag []); exists []; reflexivity.
  - destruct (startswith tag (c :: text)).
    + exists (c :: text). reflexivity.
    + exists k. simpl. now rewrite <- IH.
Qed.

Lemma split_head_absent (tag text : pystr) :
  contains tag text = false -> split_head tag text = text.
Proof.
  induction text as [|c text IH]; simpl; intros H.
  - now destruct (startswith tag []).
  - apply orb_false_iff in H as [-> H]. now rewrite IH.
Qed.

Lemma split_head_free (tag text : pystr) :
  tag <> [] -> contains tag (split_head tag text) = false.
Proof.
  intros Htag. induction text as [|c text IH]; simpl.
  - destruct tag; [congruence | reflexivity].
  - destruct (startswith tag (c :: text)) eqn:E.
    + destruct tag; [congruence | reflexivity].
    + simpl. rewrite IH, orb_false_r.
      destruct (startswith tag (c :: split_head tag text)) eqn:E'; [|reflexivity].
      apply startswith_iff in E' as [rest E'].
      destruct (split_head_prefix tag text) as [k Hk].
      rewrite <- E. symmetry. apply startswith_iff.
      exists (rest ++ k). rewrite Hk at 1.
      rewrite app_comm_cons, E', <- app_assoc. reflexivity.
Qed.

Lemma split_head_first (tag text : pystr) :
  contains tag text = true -> first_cut tag text (split_head tag text).
Proof.
  induction text as [|c text IH]; simpl; intros H.
  - rewrite orb_false_r in H. rewrite H. split.
    + apply startswith_iff in H. exact H.
    + intros. simpl. lia.
  - destruct (startswith tag (c :: text)) eqn:E.
    + split; [now apply startswith_iff in E | intros; simpl; lia].
    + simpl in H. destruct (IH H) as [[rest Hr] Hmin]. split.
      * exists rest. simpl. now rewrite <- Hr.
      * intros pre' rest' Heq. destruct pre' as [|p pre']; simpl in Heq.
        -- exfalso. assert (startswith tag (c :: text) = true) as E2
             by (apply startswith_iff; eauto). congruence.
        -- injection Heq as _ Heq. specialize (Hmin _ _ Heq). simpl. lia.
Qed.

Lemma cut_prefix (text tag : pystr) : exists k, text = cut text tag ++ k.
Proof.
  unfold cut. destruct (contains tag text).
  - apply split_head_prefix.
  - exists []. now rewrite app_nil_r.
Qed.

Lemma cut_free (text tag : pystr) : tag <> [] -> contains tag (cut text tag) = false.
Proof.
  intros Htag. unfold cut. destruct (contains tag text) eqn:E.
  - now apply split_head_free.
  - exact E.
Qed.

Lemma cut_absent (text tag : pystr) : contains tag text = false -> cut text tag = text.
Proof. intros H. unfold cut. now rewrite H. Qed.

Lemma fold_cut_prefix (tags : list pystr) (text : pystr) :
  exists k, text = fold_left cut tags text ++ k.
Proof.
  revert text. induction tags as [|t tags IH]; intros text; simpl.
  - exists []. now rewrite app_nil_r.
  - destruct (IH (cut text t)) as [k Hk]. destruct (cut_prefix text t) as [k' Hk'].
    exists (k ++ k'). rewrite app_assoc, <- Hk. exact Hk'.
Qed.

Lemma fold_cut_free (tags : list pystr) (text tag : pystr) :
  Forall (fun t => t <> []) tags -> In tag tags ->
  contains tag (fold_left cut tags text) = false.
Proof.
  revert text. induction tags as [|t tags IH]; intros text Hne Hin; [destruct Hin|].
  inversion Hne as [|? ? Ht Hrest]; subst. simpl. destruct Hin as [-> | Hin].
  - destruct (fold_cut_prefix tags (cut text tag)) as [k Hk].
    apply contains_false_prefix with (k := k). rewrite <- Hk. now apply cut_free.
  - now apply IH.
Qed.

Lemma fold_cut_absent (tags : list pystr) (text : pystr) :
  Forall (fun t => contains t text = false) tags -> fold_left cut tags text = text.
Proof.
  induction tags as [|t tags IH]; intros H; simpl; [reflexivity|].
  inversion H; subst. rewrite cut_absent by assumption. now apply IH.
Qed.

Lemma cut_tags_nonempty : Forall (fun t : pystr => t <> []) cut_tags.
Proof. repeat constructor; discriminate. Qed.

Lemma cut_all_free (text tag : pystr) :
  In tag cut_tags -> contains tag (cut_all text) = false.
Proof. apply fold_cut_free, cut_tags_nonempty. Qed.

#[local] Hint Resolve cut_all_free cut_free split_head_free : cleaner.

Lemma lstrip_suffix (text : pystr) : exists k, text = k ++ lstrip text.
Proof.
  induction text as [|c text [k IH]]; simpl.
  - exists []. reflexivity.
  - destruct (isspace c).
    + exists (c :: k). simpl. now rewrite <- IH.
    + exists []. reflexivity.
Qed.

Lemma rstrip_prefix (text : pystr) : exists k, text = rstrip text ++ k.
Proof.
  induction text as [|c text [k IH]]; simpl.
  - exists []. reflexivity.
  - destruct (rstrip text) as [|r kept] eqn:E.
    + destruct (isspace c).
      * exists (c :: text). reflexivity.
      * exists text. reflexivity.
    + exists k. simpl. simpl in IH. now rewrite <- IH.
Qed.

Lemma strip_part (text : pystr) : exists pre rest, text = pre ++ strip text ++ rest.
Proof.
  unfold strip. destruct (lstrip_suffix text) as [pre Hp].
  destruct (rstrip_prefix (lstrip text)) as [rest Hr].
  exists pre, rest. now rewrite <- Hr.
Qed.

Lemma strip_free (tag text : pystr) :
  contains tag text = false -> contains tag (strip text) = false.
Proof.
  intros H. destruct (strip_part text) as (pre & rest & E).
  rewrite E in H. now apply contains_false_part in H.
Qed.

#[local] Hint Resolve strip_free : cleaner.

Lemma lstrip_clean_head (text : pystr) : clean_head (lstrip text).
Proof.
  induction text as [|c text IH]; simpl; [exact I|].
  destruct (isspace c) eqn:E; [exact IH | exact E].
Qed.

Lemma lstrip_id (text : pystr) : clean_head text -> lstrip text = text.
Proof. destruct text as [|c text]; simpl; [reflexivity | now intros ->]. Qed.

Lemma rstrip_clean_head (text : pystr) : clean_head text -> clean_head (rstrip text).
Proof.
  destruct text as [|c text]; simpl; [exact id|]. intros H.
  destruct (rstrip text); [rewrite H|]; exact H.
Qed.

Lemma rstrip_idem (text : pystr) : rstrip (rstrip text) = rstrip text.
Proof.
  induction text as [|c text IH]; simpl; [reflexivity|].
  destruct (rstrip text) as [|r kept] eqn:E.
  - destruct (isspace c) eqn:Ec; simpl; [reflexivity | now rewrite Ec].
  - remember (r :: kept) as l. simpl. rewrite IH. subst l. reflexivity.
Qed.

Lemma strip_clean_head (text : pystr) : clean_head (strip text).
Proof. apply rstrip_clean_head, lstrip_clean_head. Qed.

Lemma strip_idem (text : pystr) : strip (strip text) = strip text.
Proof.
  unfold strip at 1. rewrite lstrip_id by apply strip_clean_head.
  unfold strip. apply rstrip_idem.
Qed.

(** On a text that holds no tag and is already stripped, the loop and the
    strip change nothing. *)
Lemma clean_fixpoint (text : pystr) :
  strip (cut_all (strip (cut_all text))) = strip (cut_all text).
Proof.
  assert (cut_all (strip (cut_all text)) = strip (cut_all text)) as ->.
  { apply fold_cut_absent. apply Forall_forall. intros tag Hin.
    apply strip_free, cut_all_free. now apply list_elem_of_In. }
  apply strip_idem.
Qed.

(** ** The response cleaner: claims C2, C5, C6 and C10 *)

Section Cleaner.

Import MessengerAPI_text APIManager_text.

Lemma markers_fixed :
  clean_text EMPTY_RESPONSE = EMPTY_RESPONSE /\
  clean_text EMPTY_AFTER_CLEANING = EMPTY_AFTER_CLEANING /\
  _clean_text EMPTY = EMPTY.
Proof. repeat split; by_evaluation. Qed.

Lemma markers_free :
  forallb (fun tag => negb (contains tag EMPTY_RESPONSE)
                      && negb (contains tag EMPTY_AFTER_CLEANING)
                      && negb (contains tag EMPTY)) cut_tags = true.
Proof. by_evaluation. Qed.

Lemma is_empty_true (text : pystr) : is_empty text = true -> text = [].
Proof. destruct text; [reflexivity | discriminate]. Qed.

(** C2 on the code. [MessengerAPI.clean_text] sends the empty string to
    the empty-response marker and every non-empty text that is empty after
    the cuts and the strip to a second, different marker, as the claim
    says; [APIManager._clean_text] writes the same literal in both places
    and answers both with it. *)
Theorem C2_empty_markers (text : pystr)
    (Hne : text <> []) (Hclean : strip (cut_all text) = []) :
  clean_text [] = EMPTY_RESPONSE /\
  clean_text text = EMPTY_AFTER_CLEANING /\
  EMPTY_AFTER_CLEANING <> EMPTY_RESPONSE /\
  _clean_text [] = EMPTY /\
  _clean_text text = EMPTY.
Proof.
  repeat split.
  - unfold clean_text. destruct text; [congruence|]. simpl is_empty. cbv iota.
    cbv zeta. now rewrite Hclean.
  - vm_compute. discriminate.
  - unfold _clean_text. destruct text; [congruence|]. simpl is_empty. cbv iota.
    cbv zeta. now rewrite Hclean.
Qed.

Lemma C2_empty_markers_witness :
  clean_text [] = EMPTY_RESPONSE /\
  clean_text (py "   ") = EMPTY_AFTER_CLEANING /\
  EMPTY_AFTER_CLEANING <> EMPTY_RESPONSE /\
  _clean_text [] = EMPTY /\
  _clean_text (py "   ") = EMPTY.
Proof.
  apply (C2_empty_markers (py "   ")).
  - vm_compute. discriminate.
  - vm_compute. reflexivity.
Defined.




(** C6. Cleaning a cleaned text changes nothing, in both cleaners and for
    every input, the empty one and the ones that reduce to a marker
    included. *)
Theorem C6_idempotent (text : pystr) :
  clean_text (clean_text text) = clean_text text /\
  _clean_text (_clean_text text) = _clean_text text.
Proof.
  destruct markers_fixed as (H1 & H2 & H3).
  destruct text as [|c text]; [split; [exact H1 | exact H3]|].
  set (T := c :: text).
  assert (clean_text T =
          if is_empty (strip (cut_all T)) then EMPTY_AFTER_CLEANING
          else strip (cut_all T)) as -> by reflexivity.
  assert (_clean_text T =
          if is_empty (strip (cut_all T)) then EMPTY else strip (cut_all T))
    as -> by reflexivity.
  destruct (strip (cut_all T)) as [|d rest] eqn:Es; simpl is_empty; cbv iota;
    [split; [exact H2 | exact H3]|].
  split.
  - unfold clean_text. simpl is_empty. cbv iota zeta.
    rewrite <- Es, clean_fixpoint, Es. reflexivity.
  - unfold _clean_text. simpl is_empty. cbv iota zeta.
    rewrite <- Es, clean_fixpoint, Es. reflexivity.
Qed.

Lemma cleaned_free (text marker : pystr) (tag : pystr) :
  In tag cut_tags -> contains tag marker = false ->
  contains tag (if is_empty (strip (cut_all text)) then marker else strip (cut_all text))
  = false.
Proof.
  intros Hin Hm. destruct (is_empty (strip (cut_all text))); auto with cleaner.
Qed.

Lemma clean_text_free (text tag : pystr) :
  In tag cut_tags ->
  contains tag (clean_text text) = false /\ contains tag (_clean_text text) = false.
Proof.
  intros Hin. pose proof markers_free as Hm. rewrite forallb_forall in Hm.
  specialize (Hm tag Hin). rewrite !andb_true_iff, !negb_true_iff in Hm.
  destruct Hm as [[M1 M2] M3]. destruct text as [|c text].
  - split; [exact M1 | exact M3].
  - split.
    + exact (cleaned_free (c :: text) EMPTY_AFTER_CLEANING tag Hin M2).
    + exact (cleaned_free (c :: text) EMPTY tag Hin M3).
Qed.

(** C10. No output of either cleaner holds a cut tag: the cuts remove
    each tag, taking prefixes and stripping bring none back, and the
    markers hold none. *)
Theorem C10_output_free_of_tags (text : pystr) :
  existsb (fun tag => contains tag (clean_text text)) cut_tags = false /\
  existsb (fun tag => contains tag (_clean_text text)) cut_tags = false.
Proof.
  split; apply not_true_is_false; intros H;
    apply existsb_exists in H as (tag & Hin & Hc);
    destruct (clean_text_free text tag Hin) as [H1 H2]; congruence.
Qed.

End Cleaner.

(** ** Templates with an unknown placeholder: claim C1 *)

Lemma format_go_app (kw : gmap pystr pystr) (pre rest : pystr) :
  forall m out s,
    format_go kw pre m out = Ok s ->
    format_go kw (pre ++ rest) m out = format_go kw rest Lit s.
Proof.
  induction pre as [|c pre IH]; intros m out s H.
  - destruct m; simpl in H; try discriminate. now injection H as ->.
  - simpl in *. destruct m.
    + destruct (c =? LBRACE); [now apply IH|].
      destruct (c =? RBRACE); now apply IH.
    + destruct (c =? LBRACE); [now apply IH|].
      destruct (c =? RBRACE).
      * discriminate.
      * destruct (is_special c); [discriminate | now apply IH].
    + destruct (c =? RBRACE); [now apply IH | discriminate].
    + destruct (c =? RBRACE).
      * destruct (get_field kw name); simpl in *; try discriminate. now apply IH.
      * destruct (is_special c); [discriminate | now apply IH].
Qed.

Lemma format_go_field (kw : gmap pystr pystr) (name2 post : pystr) :
  forallb (fun c => negb (is_special c || (c =? RBRACE))) name2 = true ->
  forall name1 out,
    format_go kw (name2 ++ RBRACE :: post) (Field name1) out =
    bind (get_field kw (name1 ++ name2))
         (fun v => format_go kw post Lit (out ++ v)).
Proof.
  induction name2 as [|c name2 IH]; intros Hall name1 out.
  - simpl. rewrite app_nil_r. reflexivity.
  - simpl in Hall. apply andb_true_iff in Hall as [Hc Hall].
    apply negb_true_iff, orb_false_iff in Hc as [Hs Hr].
    simpl. rewrite Hr, Hs, IH by assumption. now rewrite <- app_assoc.
Qed.




Section UnknownPlaceholder.

Variables pre name post : pystr.
Hypothesis Hpre : known_only pre.
Hypothesis Hname : plain_key name = true.
Hypothesis Hnot_group_name : name <> py "group_name".
Hypothesis Hnot_members : name <> py "members".

Let template : pystr := pre ++ LBRACE :: name ++ RBRACE :: post.





End UnknownPlaceholder.



(** ** Photo messages in the history block: claim C3 *)

Lemma ChatManager_text_line (cm : ChatManager.t) (h id sender text ts path : pystr) :
  ChatManager.add_history_line cm h (Message.mk id sender text ts TEXT path) =
  h ++ ((if pystr_eqb sender USER then py "Пользователь"
         else ChatManager.name_of cm sender) ++ py ": " ++ text ++ nl).
Proof. reflexivity. Qed.

(** C3 on the code. [MessengerApp.build_prompt] writes the line
    ["<name>: [отправил(а) фото]"] for a photo message and
    ["<name>: <body>"] for a text message; [ChatManager.build_prompt]
    writes the text line but adds nothing for a photo message, so that a
    history made of one photo yields an empty block. *)
Theorem C3_photo_line (h id sender text ts path : pystr) :
  (forall st body,
      MessengerApp.add_history_line st (Ok h)
        {| MessengerApp.m_id := id; MessengerApp.m_sender := sender;
           MessengerApp.m_text := body; MessengerApp.m_timestamp := ts;
           MessengerApp.m_type := PHOTO; MessengerApp.m_photo_path := Some path |}
      = Ok (h ++ (MessengerApp.sender_name st
                    {| MessengerApp.m_id := id; MessengerApp.m_sender := sender;
                       MessengerApp.m_text := body; MessengerApp.m_timestamp := ts;
                       MessengerApp.m_type := PHOTO;
                       MessengerApp.m_photo_path := Some path |}
                  ++ py ": [отправил(а) фото]" ++ nl))) /\
  (forall cm,
      ChatManager.add_history_line cm h (Message.mk id sender text ts TEXT path)
      = h ++ ((if pystr_eqb sender USER then py "Пользователь"
               else ChatManager.name_of cm sender) ++ py ": " ++ text ++ nl)) /\
  (forall cm,
      ChatManager.add_history_line cm h (Message.mk id sender text ts PHOTO path) = h) /\
  MessengerApp.history_text
    (Sample.app (py "alice") [] (<[py "alice" := [Sample.photo_dict]]> ∅))
  = Ok (py "Alice: [отправил(а) фото]" ++ nl) /\
  ChatManager.build_prompt
    (Sample.manager [] (<[py "alice" := [Sample.photo_msg]]> ∅)) (py "alice")
    Sample.alice false
  = Ok (py "You are Alice." ++ nl ++ nl ++ py "История переписки:" ++ nl
        ++ [] ++ nl ++ py "Ответь на последнее сообщение.").
Proof.
  split; [|split; [|split; [|split]]].
  - intros st body. reflexivity.
  - intros cm. apply ChatManager_text_line.
  - intros cm. reflexivity.
  - vm_compute. reflexivity.
  - vm_compute. reflexivity.
Qed.

(** ** History windows: claim C4 *)

Section Windows.

Variable now_msg_id now_isoformat : nat -> pystr.


Lemma add_history_line_app (cm : ChatManager.t) (acc : pystr) (msg : Message.t) :
  ChatManager.add_history_line cm acc msg = acc ++ history_line cm msg.
Proof.
  unfold history_line, ChatManager.add_history_line.
  destruct (pystr_eqb (Message.msg_type msg) TEXT); [reflexivity|].
  now rewrite app_nil_r.
Qed.


Lemma history_fold (cm : ChatManager.t) (l : list Message.t) (acc : pystr) :
  fold_left (ChatManager.add_history_line cm) l acc
  = acc ++ concat (map (history_line cm) l).
Proof.
  revert acc. induction l as [|msg l IH]; intros acc; simpl.
  - now rewrite app_nil_r.
  - rewrite IH, add_history_line_app, <- app_assoc. reflexivity.
Qed.

Lemma add_message_eq (cm : ChatManager.t) (chat_id : pystr) (i : new_message) :
  fst (ChatManager.add_message now_msg_id now_isoformat cm chat_id
         (n_sender i) (n_text i) (n_type i) (n_photo_path i))
  = let h := default [] (ChatManager.chats cm !! chat_id)
             ++ stamp now_msg_id now_isoformat (ChatManager.ticks cm) [i] in
    ChatManager.mk (ChatManager.characters cm) (ChatManager.groups cm)
      (<[chat_id := h]> (ChatManager.chats cm))
      (<[chat_id := saved (ChatManager.groups cm) chat_id h]> (ChatManager.files cm))
      (S (ChatManager.ticks cm)).
Proof.
  unfold ChatManager.add_message, ChatManager.save_chat_history. simpl.
  rewrite lookup_insert_eq. reflexivity.
Qed.






End Windows.


(** ** A group turn in which every member ignores: claim C7 *)

Section AllIgnore.

Variable unicode_alnum : N -> bool.
Variable path_exists : pystr -> bool.
Variable now_msg_id now_isoformat : nat -> pystr.

(** [build_prompt] reads the personas, the histories and the open chat
    only. *)
Lemma build_prompt_set_typing (st : MessengerApp.t) (b : bool) character chat_type
    group_context :
  MessengerApp.build_prompt (MessengerApp.set_typing st b) character chat_type
    group_context
  = MessengerApp.build_prompt st character chat_type group_context.
Proof. reflexivity. Qed.

Lemma app_group_loop_ignored (api : nat -> pystr -> MessengerApp.char_data -> pystr)
    (st : MessengerApp.t) (group : MessengerApp.group_data) (members : list pystr) :
  (forall member_id character,
      In member_id members ->
      MessengerApp.characters st !! member_id = Some character ->
      exists prompt,
        MessengerApp.build_prompt st character (py "group") (Some group) = Ok prompt /\
        forall calls, contains IGNORE (api calls prompt character) = true) ->
  forall calls,
    MessengerApp.group_loop unicode_alnum path_exists now_msg_id now_isoformat api
      st group members calls = (st, Ok tt).
Proof.
  induction members as [|member_id rest IH]; intros Hall calls; [reflexivity|].
  cbn [MessengerApp.group_loop].
  destruct (MessengerApp.characters st !! member_id) as [character|] eqn:Hc.
  - destruct (Hall member_id character (or_introl eq_refl) Hc) as (prompt & -> & Hi).
    rewrite Hi. apply IH. intros m c Hin. apply Hall. now right.
  - apply IH. intros m c Hin. apply Hall. now right.
Qed.

Lemma area_group_loop_ignored (send_message : nat -> pystr -> pystr)
    (cm : ChatManager.t) (chat_id : pystr) (members : list pystr) :
  (forall member_id character,
      In member_id members ->
      ChatManager.characters cm !! member_id = Some character ->
      exists prompt,
        ChatManager.build_prompt cm chat_id character true = Ok prompt /\
        forall calls, contains IGNORE (send_message calls prompt) = true) ->
  forall calls,
    ChatArea.group_loop now_msg_id now_isoformat send_message cm chat_id members calls
    = (cm, Ok tt).
Proof.
  induction members as [|member_id rest IH]; intros Hall calls; [reflexivity|].
  cbn [ChatArea.group_loop].
  destruct (ChatManager.characters cm !! member_id) as [character|] eqn:Hc.
  - destruct (Hall member_id character (or_introl eq_refl) Hc) as (prompt & -> & Hi).
    rewrite Hi. apply IH. intros m c Hin. apply Hall. now right.
  - apply IH. intros m c Hin. apply Hall. now right.
Qed.

(** C7. In a group turn where the reply to every member's prompt holds
    [[IGNORE]], the worker of [MessengerApp] returns with the histories
    and the chat files as they were and with the typing indicator of the
    chat set to false; the worker of [ChatArea], which has no indicator,
    returns with the manager unchanged. *)
Theorem C7_all_members_ignore :
  (forall (api : nat -> pystr -> MessengerApp.char_data -> pystr)
          (st : MessengerApp.t) group,
      MessengerApp.groups st !! MessengerApp.current_chat_id st = Some group ->
      (forall member_id character,
          In member_id (MessengerApp.g_members group) ->
          MessengerApp.characters st !! member_id = Some character ->
          exists prompt,
            MessengerApp.build_prompt st character (py "group") (Some group)
            = Ok prompt /\
            forall calls, contains IGNORE (api calls prompt character) = true) ->
      exists st',
        MessengerApp.get_character_response unicode_alnum path_exists now_msg_id
          now_isoformat api st = (st', Ok tt) /\
        MessengerApp.chats st' = MessengerApp.chats st /\
        MessengerApp.files st' = MessengerApp.files st /\
        MessengerApp.typing_indicators st' !! MessengerApp.current_chat_id st
        = Some false) /\
  (forall (send_message : nat -> pystr -> pystr) (cm : ChatManager.t) chat_id group,
      ChatManager.groups cm !! chat_id = Some group ->
      (forall member_id character,
          In member_id (Group.members group) ->
          ChatManager.characters cm !! member_id = Some character ->
          exists prompt,
            ChatManager.build_prompt cm chat_id character true = Ok prompt /\
            forall calls, contains IGNORE (send_message calls prompt) = true) ->
      ChatArea.get_character_response now_msg_id now_isoformat send_message cm chat_id
      = (cm, Ok tt)).
Proof.
  split.
  - intros api st group Hg Hall.
    exists (MessengerApp.hide_typing_indicator (MessengerApp.show_typing_indicator st)).
    split; [|split; [reflexivity | split; [reflexivity|]]].
    + unfold MessengerApp.get_character_response.
      set (st1 := MessengerApp.show_typing_indicator st).
      assert (MessengerApp.groups st1 !! MessengerApp.current_chat_id st1 = Some group)
        as Hg1 by exact Hg.
      rewrite bool_decide_eq_true_2 by (rewrite Hg1; eauto).
      unfold MessengerApp.handle_group_response. rewrite Hg1.
      rewrite app_group_loop_ignored; [reflexivity|].
      intros m c Hin Hc. exact (Hall m c Hin Hc).
    + cbn. apply lookup_insert_eq.
  - intros send_message cm chat_id group Hg Hall.
    unfold ChatArea.get_character_response. rewrite Hg.
    now apply area_group_loop_ignored.
Qed.

End AllIgnore.

Lemma C7_all_members_ignore_witness :
  exists st',
    MessengerApp.get_character_response Sample.ascii_only (fun _ => true)
      Sample.clock_id Sample.clock_iso (fun _ _ _ => py "skip [IGNORE]")
      (Sample.app (py "g1") [py "bob"; py "carol"; py "bob"] (<[py "g1" := []]> ∅))
    = (st', Ok tt) /\
    MessengerApp.chats st' = <[py "g1" := []]> ∅ /\
    MessengerApp.typing_indicators st' !! py "g1" = Some false.
Proof.
  destruct (proj1 (C7_all_members_ignore Sample.ascii_only (fun _ => true)
                     Sample.clock_id Sample.clock_iso)
              (fun _ _ _ => py "skip [IGNORE]")
              (Sample.app (py "g1") [py "bob"; py "carol"; py "bob"] (<[py "g1" := []]> ∅))
              (Sample.team_data [py "bob"; py "carol"; py "bob"]))
    as (st' & Hr & Hc & _ & Ht).
  - vm_compute. reflexivity.
  - intros member_id character Hin Hc.
    assert (character = Sample.bob_data) as ->.
    { destruct Hin as [<- | [<- | [<- | []]]]; vm_compute in Hc;
        first [discriminate | injection Hc as <-; vm_compute; reflexivity]. }
    eexists. split; [vm_compute; reflexivity | intros calls; vm_compute; reflexivity].
  - exists st'. split; [exact Hr | split; [exact Hc | exact Ht]].
Defined.

(** ** Photo directives: claim C8 *)

Section PhotoDirective.

Variable unicode_alnum : N -> bool.
Variable path_exists : pystr -> bool.
Variable now_msg_id now_isoformat : nat -> pystr.

Local Abbreviation is_word := (MessengerApp.is_word unicode_alnum).
Local Abbreviation word_span := (MessengerApp.word_span unicode_alnum).
Local Abbreviation match_photo_here := (MessengerApp.match_photo_here unicode_alnum).
Local Abbreviation search_photo := (MessengerApp.search_photo unicode_alnum).
Local Abbreviation process_character_response :=
  (MessengerApp.process_character_response unicode_alnum path_exists now_msg_id
     now_isoformat).

Lemma is_ascii_word_is_word (c : N) : is_ascii_word c = true -> is_word c = true.
Proof.
  unfold is_ascii_word, MessengerApp.is_word, is_ascii_digit. intros H.
  destruct (c <? 128) eqn:E; [exact H|]. exfalso.
  apply N.ltb_ge in E. rewrite !orb_true_iff, !andb_true_iff in H.
  rewrite !N.leb_le, N.eqb_eq in H. lia.
Qed.

Lemma word_span_token (w rest : pystr) :
  forallb is_ascii_word w = true ->
  word_span (w ++ 93 :: rest) = (w, 93 :: rest).
Proof.
  induction w as [|c w IH]; intros H.
  - reflexivity.
  - simpl in H. apply andb_true_iff in H as [Hc Hw].
    cbn [app MessengerApp.word_span].
    rewrite (is_ascii_word_is_word c Hc), (IH Hw). reflexivity.
Qed.

Lemma match_directive_here (token rest : pystr) :
  forallb is_ascii_word token = true -> token <> [] ->
  match_photo_here (directive token ++ rest) = Some token.
Proof.
  intros Hw Hne. unfold MessengerApp.match_photo_here, directive.
  change (py "[PHOTO:") with [91; 80; 72; 79; 84; 79; 58].
  change (py "]") with [93]. cbn [app startswith skipn N.eqb Pos.eqb andb].
  rewrite drop_0, <- app_assoc. cbn [app]. rewrite (word_span_token token rest Hw).
  destruct token; [congruence|]. cbn. reflexivity.
Qed.

(** An opening [[PHOTO:] cannot start inside [pre] and end inside a
    text that starts with a bracket. *)
Lemma startswith_open_straddle (pre rest : pystr) :
  pre <> [] ->
  startswith (py "[PHOTO:") (pre ++ 91 :: rest) = startswith (py "[PHOTO:") pre.
Proof.
  intros Hne. destruct (startswith (py "[PHOTO:") pre) eqn:E.
  - apply startswith_iff in E as [b ->]. apply startswith_iff.
    exists (b ++ 91 :: rest). now rewrite <- app_assoc.
  - apply not_true_is_false. intros H. apply startswith_iff in H as [b H].
    change (py "[PHOTO:") with [91; 80; 72; 79; 84; 79; 58] in *.
    destruct pre as [|a1 [|a2 [|a3 [|a4 [|a5 [|a6 [|a7 pre]]]]]]];
      cbn [app] in H; try congruence.
    injection H as -> -> -> -> -> -> -> _. discriminate E.
Qed.

Lemma search_directive (pre token rest : pystr) :
  forallb is_ascii_word token = true -> token <> [] ->
  contains (py "[PHOTO:") pre = false ->
  search_photo (pre ++ directive token ++ rest) = Some token /\
  contains (py "[PHOTO:") (pre ++ directive token ++ rest) = true.
Proof.
  intros Hw Hne Hfree. split.
  - induction pre as [|c pre IH].
    + cbn [app]. destruct (directive token ++ rest) eqn:E;
        cbn [MessengerApp.search_photo]; rewrite <- E;
        now rewrite match_directive_here.
    + change (contains (py "[PHOTO:") (c :: pre))
        with (startswith (py "[PHOTO:") (c :: pre) || contains (py "[PHOTO:") pre)
        in Hfree.
      apply orb_false_iff in Hfree as [Hs Hc].
      cbn [app MessengerApp.search_photo].
      assert (match_photo_here (c :: pre ++ directive token ++ rest) = None) as ->.
      { unfold MessengerApp.match_photo_here.
        assert (startswith (py "[PHOTO:") (c :: pre ++ directive token ++ rest) = false)
          as ->; [|reflexivity].
        change (c :: pre ++ directive token ++ rest)
          with ((c :: pre) ++ 91 :: (py "PHOTO:" ++ token ++ py "]") ++ rest).
        rewrite startswith_open_straddle by discriminate. exact Hs. }
      now apply IH.
  - apply contains_iff. exists pre, (token ++ py "]" ++ rest).
    unfold directive. now rewrite <- !app_assoc.
Qed.

Lemma path_join2_nonempty (path b : pystr) :
  b <> [] -> is_empty (MessengerApp.path_join2 path b) = false.
Proof.
  intros Hb. unfold MessengerApp.path_join2.
  destruct (startswith (py "/") b); [now destruct b|].
  destruct (is_empty path || startswith (py "/") (rev path)).
  - destruct path; [now destruct b | reflexivity].
  - destruct path; reflexivity.
Qed.

(** C8, as the code has it. The persona has the one photo
    ["smile_01.png"], the chat is open, and no [[PHOTO:] occurs before
    the directive in the reply. With [[PHOTO:smile_01]] the file name is
    found by substring and the path of the asset is built; when that file
    exists on disk exactly one photo message carrying the path is
    appended, and when it does not exist nothing is appended. With
    [[PHOTO:unknown]] no file name matches and nothing is appended. *)
Theorem C8_photo_directive (st : MessengerApp.t) (character : MessengerApp.char_data)
    (sender_id pre post : pystr) (history : list MessengerApp.msg)
    (Hchat : MessengerApp.chats st !! MessengerApp.current_chat_id st = Some history)
    (Hphotos : MessengerApp.photos character = [{| filename := py "smile_01.png" |}])
    (Hfirst : contains (py "[PHOTO:") pre = false) :
  let photo_path :=
    MessengerApp.path_join MessengerApp.CHARACTERS_DIR
      [MessengerApp.id character; py "photos"; py "smile_01.png"] in
  let photo_message :=
    {| MessengerApp.m_id := now_msg_id (MessengerApp.ticks st);
       MessengerApp.m_sender := sender_id;
       MessengerApp.m_text := None;
       MessengerApp.m_timestamp := now_isoformat (MessengerApp.ticks st);
       MessengerApp.m_type := PHOTO;
       MessengerApp.m_photo_path := Some photo_path |} in
  (path_exists photo_path = true ->
   exists st',
     process_character_response st (pre ++ py "[PHOTO:smile_01]" ++ post)
       character sender_id = Ok st' /\
     MessengerApp.chats st'
     = <[MessengerApp.current_chat_id st := history ++ [photo_message]]>
         (MessengerApp.chats st)) /\
  (path_exists photo_path = false ->
   process_character_response st (pre ++ py "[PHOTO:smile_01]" ++ post)
     character sender_id = Ok st) /\
  process_character_response st (pre ++ py "[PHOTO:unknown]" ++ post)
    character sender_id = Ok st.
Proof.
  intros photo_path photo_message.
  destruct (search_directive pre (py "smile_01") post) as [Hs1 Hc1];
    [reflexivity | discriminate | exact Hfirst |].
  destruct (search_directive pre (py "unknown") post) as [Hs2 Hc2];
    [reflexivity | discriminate | exact Hfirst |].
  change (directive (py "smile_01")) with (py "[PHOTO:smile_01]") in Hs1, Hc1.
  change (directive (py "unknown")) with (py "[PHOTO:unknown]") in Hs2, Hc2.
  assert (MessengerApp.find_photo character (py "smile_01")
            (MessengerApp.photos character) = Some photo_path) as Hfound
    by (rewrite Hphotos; reflexivity).
  assert (MessengerApp.find_photo character (py "unknown")
            (MessengerApp.photos character) = None) as Hmissing
    by (rewrite Hphotos; reflexivity).
  assert (is_empty photo_path = false) as Hpath
    by (apply path_join2_nonempty; discriminate).
  unfold MessengerApp.process_character_response.
  rewrite Hc1, Hs1, Hc2, Hs2. unfold MessengerApp.send_character_photo.
  rewrite Hfound, Hmissing, Hpath. cbn [orb].
  split; [|split; [|reflexivity]].
  - intros ->. cbn [negb]. unfold MessengerApp.append_current.
    cbn [MessengerApp.tick MessengerApp.chats MessengerApp.current_chat_id].
    rewrite Hchat. cbn [bind]. eexists. split; [reflexivity|]. reflexivity.
  - intros ->. reflexivity.
Qed.

End PhotoDirective.

Lemma C8_photo_directive_witness :
  exists st',
    MessengerApp.process_character_response Sample.ascii_only (fun _ => true)
      Sample.clock_id Sample.clock_iso
      (Sample.app (py "alice") [] (<[py "alice" := []]> ∅))
      (py "Look: [PHOTO:smile_01] :)") Sample.alice_data (py "alice") = Ok st' /\
    length (default [] (MessengerApp.chats st' !! py "alice")) = 1%nat.
Proof.
  assert (MessengerApp.chats (Sample.app (py "alice") [] (<[py "alice" := []]> ∅))
          !! MessengerApp.current_chat_id
               (Sample.app (py "alice") [] (<[py "alice" := []]> ∅)) = Some [])
    as Hchat by (vm_compute; reflexivity).
  destruct (C8_photo_directive Sample.ascii_only (fun _ => true)
              Sample.clock_id Sample.clock_iso
              (Sample.app (py "alice") [] (<[py "alice" := []]> ∅))
              Sample.alice_data (py "alice") (py "Look: ") (py " :)") []
              Hchat eq_refl eq_refl) as [H _].
  destruct (H eq_refl) as (st' & Hr & Hc).
  exists st'. split; [exact Hr|]. rewrite Hc. vm_compute. reflexivity.
Defined.

(** C8 as stated fails when the asset is missing on disk: the directive
    names the stored photo, and no message is appended. *)
Lemma C8_missing_file_counterexample :
  MessengerApp.process_character_response Sample.ascii_only (fun _ => false)
    Sample.clock_id Sample.clock_iso
    (Sample.app (py "alice") [] (<[py "alice" := []]> ∅))
    (py "[PHOTO:smile_01]") Sample.alice_data (py "alice")
  = Ok (Sample.app (py "alice") [] (<[py "alice" := []]> ∅)).
Proof. by_evaluation. Qed.

(** ** Unregistered providers: claim C9 *)


Lemma get_models_registered (am : APIManager.t) (provider model : pystr)
    (rest : list pystr) :
  APIManager.get_models am provider = model :: rest ->
  is_Some (APIManager.config am !! provider).
Proof.
  unfold APIManager.get_models, APIManager.provider_data_of.
  destruct (APIManager.config am !! provider); [eauto | discriminate].
Qed.





(** * Further properties of the code *)

(** ** The cleaners *)

Section CleanerMore.

Import MessengerAPI_text APIManager_text.

Lemma strip_nil_or_cons (text : pystr) :
  is_empty (strip text) = false -> strip text <> [].
Proof. destruct (strip text); [discriminate | discriminate]. Qed.

(** Whatever comes back from a provider, the cleaned reply is a string
    that is not empty and has no white space at either end. *)
Theorem clean_text_nonempty_stripped (text : pystr) :
  clean_text text <> [] /\ strip (clean_text text) = clean_text text /\
  _clean_text text <> [] /\ strip (_clean_text text) = _clean_text text.
Proof.
  destruct text as [|c text].
  - repeat split; by_evaluation.
  - set (T := c :: text).
    assert (clean_text T =
            if is_empty (strip (cut_all T)) then EMPTY_AFTER_CLEANING
            else strip (cut_all T)) as -> by reflexivity.
    assert (_clean_text T =
            if is_empty (strip (cut_all T)) then EMPTY else strip (cut_all T))
      as -> by reflexivity.
    destruct (is_empty (strip (cut_all T))) eqn:E.
    + repeat split; by_evaluation.
    + pose proof (strip_nil_or_cons _ E). repeat split; auto using strip_idem.
Qed.

(** A reply that holds no cut tag and no white space at its ends passes
    through both cleaners unchanged. *)
Theorem clean_text_keeps_clean_text (text : pystr)
    (Hne : text <> [])
    (Hfree : existsb (fun tag => contains tag text) cut_tags = false)
    (Hstrip : strip text = text) :
  clean_text text = text /\ _clean_text text = text.
Proof.
  assert (cut_all text = text) as Hcut.
  { apply fold_cut_absent, Forall_forall. intros tag Hin.
    apply not_true_is_false. intros Hc.
    apply list_elem_of_In in Hin.
    assert (existsb (fun tag => contains tag text) cut_tags = true) as Hex
      by (apply existsb_exists; eauto).
    rewrite Hfree in Hex. discriminate. }
  destruct text as [|c text]; [congruence|].
  unfold clean_text, _clean_text. cbn [is_empty]. cbv zeta.
  rewrite Hcut, Hstrip. split; reflexivity.
Qed.

Lemma clean_text_keeps_clean_text_witness :
  clean_text (py "Hello, world") = py "Hello, world" /\
  _clean_text (py "Hello, world") = py "Hello, world".
Proof.
  apply clean_text_keeps_clean_text.
  - vm_compute. discriminate.
  - vm_compute. reflexivity.
  - vm_compute. reflexivity.
Defined.

Lemma fold_cut_at_tag (tags : list pystr) (text : pystr) :
  fold_left cut tags text = text \/
  exists tag rest, In tag tags /\ text = fold_left cut tags text ++ tag ++ rest.
Proof.
  revert text. induction tags as [|t tags IH]; intros text; [now left|].
  cbn [fold_left]. destruct (IH (cut text t)) as [Heq | (tag & rest & Hin & Heq)].
  - rewrite Heq. unfold cut. destruct (contains t text) eqn:E; [|now left].
    right. destruct (split_head_first t text E) as [[rest Hr] _].
    exists t, rest. split; [now left | exact Hr].
  - right. destruct (cut_prefix text t) as [k Hk].
    exists tag, (rest ++ k). split; [now right|].
    rewrite Hk at 1. rewrite Heq at 1. now rewrite <- !app_assoc.
Qed.

(** The loop of the cleaners cuts only at a tag: the text is kept whole
    exactly when it holds none of the tags, and otherwise what is dropped
    starts with one of them. *)
Theorem cut_all_cuts_at_a_tag (text : pystr) :
  (cut_all text = text <->
   existsb (fun tag => contains tag text) cut_tags = false) /\
  (cut_all text = text \/
   exists tag rest, In tag cut_tags /\ text = cut_all text ++ tag ++ rest).
Proof.
  split; [split|].
  - intros Heq. apply not_true_is_false. intros H.
    apply existsb_exists in H as (tag & Hin & Hc).
    pose proof (cut_all_free text tag Hin) as Hf. rewrite Heq in Hf. congruence.
  - intros H. apply fold_cut_absent, Forall_forall. intros tag Hin.
    apply list_elem_of_In in Hin. apply not_true_is_false. intros Hc.
    assert (existsb (fun tag => contains tag text) cut_tags = true) as Hex
      by (apply existsb_exists; eauto).
    congruence.
  - apply fold_cut_at_tag.
Qed.

(** A cleaned reply is one of the markers or a part of the raw reply: the
    cleaners add no text of their own to it. *)
Theorem clean_text_is_part_or_marker (text : pystr) :
  (clean_text text = EMPTY_RESPONSE \/ clean_text text = EMPTY_AFTER_CLEANING \/
   exists pre post, text = pre ++ clean_text text ++ post) /\
  (_clean_text text = EMPTY \/
   exists pre post, text = pre ++ _clean_text text ++ post).
Proof.
  destruct text as [|c text]; [split; left; reflexivity|].
  set (T := c :: text).
  assert (clean_text T =
          if is_empty (strip (cut_all T)) then EMPTY_AFTER_CLEANING
          else strip (cut_all T)) as -> by reflexivity.
  assert (_clean_text T =
          if is_empty (strip (cut_all T)) then EMPTY else strip (cut_all T))
    as -> by reflexivity.
  destruct (is_empty (strip (cut_all T))); [split; [right|]; left; reflexivity|].
  destruct (fold_cut_prefix cut_tags T) as [k Hk]. fold (cut_all T) in Hk.
  destruct (strip_part (cut_all T)) as (pre & post & Hs).
  assert (T = pre ++ strip (cut_all T) ++ (post ++ k)) as Hpart.
  { rewrite Hk at 1. rewrite Hs at 1. now rewrite <- !app_assoc. }
  split; [right|]; right; exists pre, (post ++ k); exact Hpart.
Qed.

End CleanerMore.


(** ** Templates *)

Lemma format_go_prepend (kw : gmap pystr pystr) (template : pystr) :
  forall m out1 out2,
    format_go kw template m (out1 ++ out2)
    = prepend out1 (format_go kw template m out2).
Proof.
  induction template as [|c template IH]; intros m out1 out2.
  - destruct m; reflexivity.
  - cbn [format_go]. destruct m.
    + destruct (c =? LBRACE); [apply IH|].
      destruct (c =? RBRACE); [apply IH|]. rewrite <- app_assoc. apply IH.
    + destruct (c =? LBRACE); [rewrite <- app_assoc; apply IH|].
      destruct (c =? RBRACE).
      * destruct (get_field kw []); cbn [bind prepend]; try reflexivity.
        rewrite <- app_assoc. apply IH.
      * destruct (is_special c); [reflexivity | apply IH].
    + destruct (c =? RBRACE); [rewrite <- app_assoc; apply IH | reflexivity].
    + destruct (c =? RBRACE).
      * destruct (get_field kw name); cbn [bind prepend]; try reflexivity.
        rewrite <- app_assoc. apply IH.
      * destruct (is_special c); [reflexivity | apply IH].
Qed.

Lemma format_go_from (kw : gmap pystr pystr) (template out : pystr) :
  format_go kw template Lit out = prepend out (format kw template).
Proof.
  unfold format. rewrite <- (app_nil_r out) at 1. apply format_go_prepend.
Qed.

Lemma format_app_ok (kw : gmap pystr pystr) (a b s : pystr) :
  format kw a = Ok s -> format kw (a ++ b) = prepend s (format kw b).
Proof.
  intros Ha. unfold format at 1.
  rewrite (format_go_app kw a b Lit [] s Ha). apply format_go_from.
Qed.

Lemma format_go_literal (kw : gmap pystr pystr) (text : pystr) :
  brace_free text = true ->
  forall out, format_go kw text Lit out = Ok (out ++ text).
Proof.
  induction text as [|c text IH]; intros Hb out.
  - cbn. now rewrite app_nil_r.
  - unfold brace_free in *. cbn [forallb] in Hb.
    apply andb_true_iff in Hb as [Hc Hb].
    apply negb_true_iff, orb_false_iff in Hc as [Hl Hr].
    cbn [format_go]. rewrite Hl, Hr, (IH Hb), <- app_assoc. reflexivity.
Qed.

Lemma get_field_known (kw : gmap pystr pystr) (name v : pystr) :
  plain_key name = true -> kw !! name = Some v -> get_field kw name = Ok v.
Proof.
  unfold plain_key, get_field. rewrite !andb_true_iff, !negb_true_iff.
  intros [[-> _] Hmix] ->.
  destruct (forallb is_ascii_digit name) eqn:Hd.
  - exfalso. rewrite <- not_true_iff_false in Hmix. apply Hmix.
    rewrite forallb_forall in *. intros c Hc. now rewrite (Hd c Hc).
  - now rewrite Hmix.
Qed.

Lemma format_field (kw : gmap pystr pystr) (name rest : pystr) :
  plain_key name = true ->
  format kw (LBRACE :: name ++ RBRACE :: rest)
  = bind (get_field kw name) (fun v => prepend v (format kw rest)).
Proof.
  intros Hname. pose proof Hname as Hn. unfold plain_key in Hn.
  rewrite !andb_true_iff, negb_true_iff in Hn. destruct Hn as [[Hne Hall] _].
  destruct name as [|c name]; [discriminate|].
  simpl in Hall. apply andb_true_iff in Hall as [Hc Hall].
  apply negb_true_iff, orb_false_iff in Hc as [Hs Hr].
  assert ((c =? LBRACE) = false) as Hl.
  { unfold is_special in Hs. now rewrite !orb_false_iff in Hs. }
  unfold format at 1. cbn [format_go app].
  replace (LBRACE =? LBRACE) with true by reflexivity. rewrite Hl, Hr, Hs.
  rewrite format_go_field by assumption. cbn [app].
  destruct (get_field kw (c :: name)); cbn [bind]; try reflexivity.
  apply format_go_from.
Qed.

Lemma format_group_fields (group_name members pre mid post : pystr) :
  brace_free pre = true -> brace_free mid = true -> brace_free post = true ->
  format (group_kwargs group_name members)
    (pre ++ py "{group_name}" ++ mid ++ py "{members}" ++ post)
  = Ok (pre ++ group_name ++ mid ++ members ++ post).
Proof.
  intros Hpre Hmid Hpost. set (kw := group_kwargs group_name members).
  assert (get_field kw (py "group_name") = Ok group_name) as Hg.
  { apply get_field_known; [reflexivity|]. apply lookup_insert_eq. }
  assert (get_field kw (py "members") = Ok members) as Hm.
  { apply get_field_known; [reflexivity|]. unfold kw, group_kwargs.
    rewrite lookup_insert_ne by discriminate. apply lookup_insert_eq. }
  assert (forall text, brace_free text = true -> format kw text = Ok text) as Hlit
    by (intros text Hb; unfold format; now rewrite format_go_literal).
  rewrite (format_app_ok kw pre _ pre (Hlit pre Hpre)).
  change (py "{group_name}" ++ mid ++ py "{members}" ++ post)
    with (LBRACE :: py "group_name" ++ RBRACE :: (mid ++ py "{members}" ++ post)).
  rewrite format_field by reflexivity. rewrite Hg. cbn [bind].
  rewrite (format_app_ok kw mid _ mid (Hlit mid Hmid)).
  change (py "{members}" ++ post) with (LBRACE :: py "members" ++ RBRACE :: post).
  rewrite format_field by reflexivity. rewrite Hm. cbn [bind].
  rewrite (Hlit post Hpost). reflexivity.
Qed.

(** Group substitution. For a group chat, the two placeholders of a
    persona's group template are replaced by the name of the group and by
    the display names of its members, joined with ", " in the order of the
    member list, a member without a persona appearing under its id. *)
Theorem group_substitution (cm : ChatManager.t) (st : MessengerApp.t)
    (chat_id pre mid post : pystr) (group : Group.t) (character : Character.t)
    (group' : MessengerApp.group_data) (character' : MessengerApp.char_data)
    (Hpre : brace_free pre = true) (Hmid : brace_free mid = true)
    (Hpost : brace_free post = true)
    (Hgroup : ChatManager.groups cm !! chat_id = Some group)
    (Htemplate : Character.group_prompt character
                 = pre ++ py "{group_name}" ++ mid ++ py "{members}" ++ post)
    (Htemplate' : MessengerApp.group_prompt character'
                  = pre ++ py "{group_name}" ++ mid ++ py "{members}" ++ post) :
  ChatManager.build_prompt cm chat_id character true
  = Ok ((pre ++ Group.name group ++ mid
         ++ join (py ", ") (map (ChatManager.name_of cm) (Group.members group))
         ++ post) ++ prompt_tail cm chat_id) /\
  MessengerApp.build_prompt st character' (py "group") (Some group')
  = bind (MessengerApp.history_text st)
      (fun history_text =>
         Ok ((pre ++ MessengerApp.g_name group' ++ mid
              ++ join (py ", ")
                   (map (MessengerApp.name_of st) (MessengerApp.g_members group'))
              ++ post)
             ++ nl ++ nl ++ py "История переписки:" ++ nl ++ history_text ++ nl ++ nl
             ++ py "Ответь на последнее сообщение пользователя естественно и по характеру персонажа.")).
Proof.
  split.
  - unfold ChatManager.build_prompt. rewrite Hgroup, Htemplate.
    rewrite format_group_fields by assumption. reflexivity.
  - unfold MessengerApp.build_prompt.
    replace (pystr_eqb (py "group") (py "private")) with false by reflexivity.
    rewrite Htemplate', format_group_fields by assumption. reflexivity.
Qed.

Lemma group_substitution_witness :
  ChatManager.build_prompt (Sample.manager [py "alice"; py "zed"; py "bob"] ∅)
    (py "g1") Sample.bob true
  = Ok ((py "Chat " ++ py "Team" ++ py " with " ++ py "Alice, zed, Bob" ++ [])
        ++ prompt_tail (Sample.manager [py "alice"; py "zed"; py "bob"] ∅) (py "g1")).
Proof.
  refine (proj1 (group_substitution
                   (Sample.manager [py "alice"; py "zed"; py "bob"] ∅)
                   (Sample.app (py "g1") [] ∅) (py "g1")
                   (py "Chat ") (py " with ") [] 
                   (Sample.team [py "alice"; py "zed"; py "bob"]) Sample.bob
                   (Sample.team_data []) Sample.bob_data _ _ _ _ _ _));
    vm_compute; reflexivity.
Defined.

Lemma format_stray_close (kw : gmap pystr pystr) (pre rest s : pystr) :
  format kw pre = Ok s -> startswith [RBRACE] rest = false ->
  format kw (pre ++ RBRACE :: rest)
  = Raise (ValueError (py "Single '}' encountered in format string")).
Proof.
  intros Hpre Hrest. unfold format in *.
  rewrite (format_go_app kw pre _ Lit [] s Hpre). cbn [format_go].
  replace (RBRACE =? LBRACE) with false by reflexivity.
  replace (RBRACE =? RBRACE) with true by reflexivity.
  destruct rest as [|c rest]; [reflexivity|]. cbn [format_go].
  cbn [startswith] in Hrest. rewrite andb_true_r in Hrest.
  rewrite N.eqb_sym in Hrest. now rewrite Hrest.
Qed.

(** A brace that is not doubled breaks a group template: with a closing
    brace that is neither doubled nor the end of a field, or with an
    opening brace at the very end, [build_prompt] raises [ValueError] for
    every group chat, whatever the rest of the template. *)
Theorem stray_brace_raises (cm : ChatManager.t) (chat_id pre rest : pystr)
    (group : Group.t) (character : Character.t)
    (Hpre : known_only pre)
    (Hgroup : ChatManager.groups cm !! chat_id = Some group) :
  (Character.group_prompt character = pre ++ RBRACE :: rest ->
   startswith [RBRACE] rest = false ->
   ChatManager.build_prompt cm chat_id character true
   = Raise (ValueError (py "Single '}' encountered in format string"))) /\
  (Character.group_prompt character = pre ++ [LBRACE] ->
   ChatManager.build_prompt cm chat_id character true
   = Raise (ValueError (py "Single '{' encountered in format string"))).
Proof.
  destruct (Hpre (Group.name group)
              (join (py ", ") (map (ChatManager.name_of cm) (Group.members group))))
    as [s Hs].
  split.
  - intros Ht Hrest. unfold ChatManager.build_prompt. rewrite Hgroup, Ht.
    now rewrite (format_stray_close _ pre rest s Hs Hrest).
  - intros Ht. unfold ChatManager.build_prompt. rewrite Hgroup, Ht.
    unfold format in *. rewrite (format_go_app _ pre _ Lit [] s Hs). reflexivity.
Qed.

Lemma stray_brace_raises_witness :
  ChatManager.build_prompt (Sample.manager [py "bob"] ∅) (py "g1")
    (Character.mk (py "bob") (py "Bob") [] (py "Use a set } here") []) true
  = Raise (ValueError (py "Single '}' encountered in format string")).
Proof.
  refine (proj1 (stray_brace_raises (Sample.manager [py "bob"] ∅) (py "g1")
                   (py "Use a set ") (py " here") (Sample.team [py "bob"])
                   (Character.mk (py "bob") (py "Bob") [] (py "Use a set } here") [])
                   _ _) _ _).
  - intros group_name members. eexists. cbv. reflexivity.
  - vm_compute. reflexivity.
  - vm_compute. reflexivity.
  - vm_compute. reflexivity.
Defined.


(** ** The conversation store of [ChatManager] *)

Section Store.

Variable now_msg_id now_isoformat : nat -> pystr.

Lemma parse_saved (l : list Message.t) :
  ChatManager.parse_messages (map ChatManager.to_raw (map ChatManager.to_dict l))
  = Some l.
Proof.
  induction l as [|msg l IH]; [reflexivity|].
  cbn [map ChatManager.parse_messages]. rewrite IH.
  destruct msg as [i s t ts ty p]. destruct p; reflexivity.
Qed.

Lemma lastn_length_le {A} (n : nat) (l : list A) : (length (lastn n l) <= n)%nat.
Proof. unfold lastn. rewrite length_drop. lia. Qed.

Lemma lastn_snoc {A} (n : nat) (l : list A) (x : A) :
  (0 < n)%nat -> last (lastn n (l ++ [x])) = Some x.
Proof.
  intros Hn. unfold lastn. rewrite length_app. cbn [length].
  rewrite drop_app_le by lia. apply last_snoc.
Qed.

Lemma add_message_frame (cm : ChatManager.t)
    (chat_id sender text msg_type photo_path : pystr) :
  let r := ChatManager.add_message now_msg_id now_isoformat cm chat_id sender text
             msg_type photo_path in
  ChatManager.get_chat_messages (fst r) chat_id
  = ChatManager.get_chat_messages cm chat_id
    ++ [Message.mk (now_msg_id (ChatManager.ticks cm)) sender text
          (now_isoformat (ChatManager.ticks cm)) msg_type photo_path] /\
  ChatManager.ticks (fst r) = S (ChatManager.ticks cm) /\
  ChatManager.characters (fst r) = ChatManager.characters cm /\
  ChatManager.groups (fst r) = ChatManager.groups cm /\
  forall other, other <> chat_id ->
    ChatManager.chats (fst r) !! other = ChatManager.chats cm !! other.
Proof.
  intros r.
  pose proof (add_message_eq now_msg_id now_isoformat cm chat_id
                {| n_sender := sender; n_text := text; n_type := msg_type;
                   n_photo_path := photo_path |}) as Heq.
  cbn [n_sender n_text n_type n_photo_path] in Heq. fold r in Heq. cbv zeta in Heq.
  rewrite Heq. unfold ChatManager.get_chat_messages.
  cbn [ChatManager.chats ChatManager.characters ChatManager.groups ChatManager.ticks].
  split; [now rewrite lookup_insert_eq|]. split; [reflexivity|].
  split; [reflexivity|]. split; [reflexivity|].
  intros other Hother. now rewrite lookup_insert_ne by congruence.
Qed.

(** [add_message] appends the message it returns to the chat and touches
    nothing else: the personas, the groups, the other chats and the files
    of the other chats stay as they were. *)
Theorem add_message_effect (cm : ChatManager.t)
    (chat_id sender text msg_type photo_path : pystr) :
  let r := ChatManager.add_message now_msg_id now_isoformat cm chat_id sender text
             msg_type photo_path in
  snd r = Message.mk (now_msg_id (ChatManager.ticks cm)) sender text
            (now_isoformat (ChatManager.ticks cm)) msg_type photo_path /\
  ChatManager.get_chat_messages (fst r) chat_id
  = ChatManager.get_chat_messages cm chat_id ++ [snd r] /\
  ChatManager.characters (fst r) = ChatManager.characters cm /\
  ChatManager.groups (fst r) = ChatManager.groups cm /\
  forall other, other <> chat_id ->
    ChatManager.chats (fst r) !! other = ChatManager.chats cm !! other /\
    ChatManager.files (fst r) !! other = ChatManager.files cm !! other.
Proof.
  intros r.
  pose proof (add_message_eq now_msg_id now_isoformat cm chat_id
                {| n_sender := sender; n_text := text; n_type := msg_type;
                   n_photo_path := photo_path |}) as Heq.
  cbn [n_sender n_text n_type n_photo_path] in Heq. fold r in Heq. cbv zeta in Heq.
  split; [reflexivity|]. rewrite Heq. unfold ChatManager.get_chat_messages.
  cbn [ChatManager.chats ChatManager.files ChatManager.characters ChatManager.groups].
  split; [now rewrite lookup_insert_eq|]. split; [reflexivity|]. split; [reflexivity|].
  intros other Hother. now rewrite !lookup_insert_ne by congruence.
Qed.

(** Round trip through the chat file. After [add_message] the file of the
    chat, read back by [_load_chat_history], gives the last hundred
    messages of the chat and ends with the message just added; the file
    never holds more than a hundred messages, so what is older is lost at
    the next start. *)
Theorem save_load_round_trip (cm : ChatManager.t)
    (chat_id sender text msg_type photo_path : pystr) :
  let r := ChatManager.add_message now_msg_id now_isoformat cm chat_id sender text
             msg_type photo_path in
  let reloaded := ChatManager._load_chat_history (ChatManager.file_of (fst r) chat_id) in
  reloaded = lastn MAX_MESSAGES_IN_HISTORY (ChatManager.get_chat_messages (fst r) chat_id) /\
  (length reloaded <= 100)%nat /\
  last reloaded = Some (snd r).
Proof.
  intros r reloaded.
  pose proof (add_message_eq now_msg_id now_isoformat cm chat_id
                {| n_sender := sender; n_text := text; n_type := msg_type;
                   n_photo_path := photo_path |}) as Heq.
  cbn [n_sender n_text n_type n_photo_path] in Heq. fold r in Heq. cbv zeta in Heq.
  assert (reloaded
          = lastn MAX_MESSAGES_IN_HISTORY (ChatManager.get_chat_messages (fst r) chat_id))
    as Hr.
  { unfold reloaded, ChatManager.file_of, ChatManager.get_chat_messages.
    rewrite Heq. cbn [ChatManager.files ChatManager.chats].
    rewrite !lookup_insert_eq. cbn [saved ChatManager.f_messages].
    unfold ChatManager._load_chat_history. cbn [default from_option id].
    now rewrite parse_saved. }
  split; [exact Hr|]. rewrite Hr. split; [apply lastn_length_le|].
  destruct (add_message_frame cm chat_id sender text msg_type photo_path)
    as (Hc & _). fold r in Hc. rewrite Hc.
  apply lastn_snoc. unfold MAX_MESSAGES_IN_HISTORY. lia.
Qed.

End Store.

Lemma add_message_effect_witness :
  ChatManager.chats
    (fst (ChatManager.add_message Sample.clock_id Sample.clock_iso
            (Sample.manager [] (<[py "bob" := [Sample.photo_msg]]> ∅))
            (py "alice") USER (py "hi") TEXT []))
  !! py "bob" = Some [Sample.photo_msg].
Proof.
  destruct (add_message_effect Sample.clock_id Sample.clock_iso
              (Sample.manager [] (<[py "bob" := [Sample.photo_msg]]> ∅))
              (py "alice") USER (py "hi") TEXT []) as (_ & _ & _ & _ & H).
  destruct (H (py "bob")) as [Hc _]; [vm_compute; discriminate|].
  rewrite Hc. vm_compute. reflexivity.
Defined.


(** Loading is all or nothing. When every message object of the file has
    its [id], [sender], [timestamp] and [type], each one is loaded, a
    missing text or photo path reading as the empty string; when one object
    lacks one of the four keys, the whole history loads as the empty
    list. *)
Theorem load_all_or_nothing (messages : list ChatManager.raw_msg) :
  (Forall (fun r => is_Some (ChatManager.r_id r) /\ is_Some (ChatManager.r_sender r) /\
                    is_Some (ChatManager.r_timestamp r) /\
                    is_Some (ChatManager.r_type r)) messages ->
   ChatManager._load_chat_history (ChatManager.Document (Some messages))
   = map loaded_message messages) /\
  (forall r, In r messages ->
     ChatManager.r_id r = None \/ ChatManager.r_sender r = None \/
     ChatManager.r_timestamp r = None \/ ChatManager.r_type r = None ->
     ChatManager._load_chat_history (ChatManager.Document (Some messages)) = []).
Proof.
  unfold ChatManager._load_chat_history. cbn [default from_option id]. split.
  - intros Hall.
    assert (ChatManager.parse_messages messages = Some (map loaded_message messages))
      as ->; [|reflexivity].
    induction Hall as [|r rest (Hi & Hs & Ht & Hy) _ IH]; [reflexivity|].
    destruct Hi as [i Hi], Hs as [s Hs], Ht as [ts Ht], Hy as [ty Hy].
    cbn [ChatManager.parse_messages map].
    unfold ChatManager.parse_message, loaded_message.
    rewrite Hi, Hs, Ht, Hy, IH. reflexivity.
  - intros r Hin Hmiss.
    assert (ChatManager.parse_message r = None) as Hnone.
    { unfold ChatManager.parse_message.
      destruct Hmiss as [-> | [-> | [-> | ->]]];
        repeat match goal with |- context [match ?x with _ => _ end] => destruct x end;
        reflexivity. }
    assert (ChatManager.parse_messages messages = None) as ->; [|reflexivity].
    induction messages as [|r0 rest IH]; [destruct Hin|].
    cbn [ChatManager.parse_messages]. destruct Hin as [-> | Hin].
    + now rewrite Hnone.
    + rewrite (IH Hin). now destruct (ChatManager.parse_message r0).
Qed.

Lemma load_all_or_nothing_witness :
  ChatManager._load_chat_history
    (ChatManager.Document
       (Some [ChatManager.to_raw (ChatManager.to_dict Sample.photo_msg);
              {| ChatManager.r_id := Some (py "msg_2");
                 ChatManager.r_sender := Some USER;
                 ChatManager.r_text := Some (py "hi");
                 ChatManager.r_timestamp := None;
                 ChatManager.r_type := Some TEXT;
                 ChatManager.r_photo_path := None |}]))
  = [].
Proof.
  refine (proj2 (load_all_or_nothing _)
            {| ChatManager.r_id := Some (py "msg_2");
               ChatManager.r_sender := Some USER;
               ChatManager.r_text := Some (py "hi");
               ChatManager.r_timestamp := None;
               ChatManager.r_type := Some TEXT;
               ChatManager.r_photo_path := None |} _ _).
  - right. left. reflexivity.
  - right. right. left. reflexivity.
Defined.


(** ** Groups *)

(** [create_group] registers the group under the id it returns, with the
    members in the order given, and gives it an empty history; the personas,
    the files and every other group and chat stay as they were. A group and
    a history already stored under that id are replaced: two groups created
    within the same second of the clock share one id, and only the second
    remains. *)
Theorem create_group_effect (now_group_id : nat -> pystr) (cm : ChatManager.t)
    (name : pystr) (members : list pystr) :
  let '(cm', group_id, written) :=
    ChatManager.create_group now_group_id cm name members in
  group_id = now_group_id (ChatManager.ticks cm) /\
  ChatManager.groups cm' !! group_id
  = Some (Group.mk group_id name members (py "Групповой чат '" ++ name ++ py "'")) /\
  ChatManager.chats cm' !! group_id = Some [] /\
  ChatManager.characters cm' = ChatManager.characters cm /\
  ChatManager.files cm' = ChatManager.files cm /\
  (ChatManager.y_id written, ChatManager.y_name written, ChatManager.y_members written)
  = (group_id, name, members) /\
  (forall other, other <> group_id ->
     ChatManager.groups cm' !! other = ChatManager.groups cm !! other /\
     ChatManager.chats cm' !! other = ChatManager.chats cm !! other) /\
  (forall name2 members2,
     now_group_id (S (ChatManager.ticks cm)) = group_id ->
     let '(cm2, group_id2, _) :=
       ChatManager.create_group now_group_id cm' name2 members2 in
     group_id2 = group_id /\
     ChatManager.groups cm2 !! group_id
     = Some (Group.mk group_id name2 members2
               (py "Групповой чат '" ++ name2 ++ py "'"))).
Proof.
  unfold ChatManager.create_group. cbn [ChatManager.groups ChatManager.chats
    ChatManager.characters ChatManager.files ChatManager.ticks Group.group_context
    ChatManager.y_id ChatManager.y_name ChatManager.y_members].
  rewrite !lookup_insert_eq.
  split; [reflexivity|]. split; [reflexivity|]. split; [reflexivity|].
  split; [reflexivity|]. split; [reflexivity|]. split; [reflexivity|]. split.
  - intros other Hother. now rewrite !lookup_insert_ne by congruence.
  - intros name2 members2 Hsame. rewrite Hsame. split; [reflexivity|].
    apply lookup_insert_eq.
Qed.

Lemma create_group_effect_witness :
  ChatManager.groups
    (fst (fst (ChatManager.create_group (fun _ => py "group_1761220800")
                 (fst (fst (ChatManager.create_group (fun _ => py "group_1761220800")
                              (Sample.manager [] ∅) (py "First")
                              [py "alice"; py "bob"])))
                 (py "Second") [py "bob"; py "alice"])))
  !! py "group_1761220800"
  = Some (Group.mk (py "group_1761220800") (py "Second") [py "bob"; py "alice"]
            (py "Групповой чат '" ++ py "Second" ++ py "'")).
Proof.
  pose proof (create_group_effect (fun _ => py "group_1761220800")
                (Sample.manager [] ∅) (py "First") [py "alice"; py "bob"]) as H.
  destruct (ChatManager.create_group (fun _ => py "group_1761220800")
              (Sample.manager [] ∅) (py "First") [py "alice"; py "bob"])
    as [[cm' gid] written] eqn:E.
  destruct H as (Hid & _ & _ & _ & _ & _ & _ & H).
  specialize (H (py "Second") [py "bob"; py "alice"] (eq_sym Hid)).
  cbn [fst].
  destruct (ChatManager.create_group (fun _ => py "group_1761220800") cm'
              (py "Second") [py "bob"; py "alice"]) as [[cm2 gid2] w2].
  destruct H as [_ H]. cbn [fst]. rewrite Hid in H. exact H.
Defined.

(** The dialog creates a group only with a name that is not blank and with
    two members or more: then the group is stored under the stripped name
    with the selected members, in their order; otherwise nothing is
    created. *)
Theorem dialog_create_group (now_group_id : nat -> pystr) (cm : ChatManager.t)
    (name_entry : pystr) (selected : list pystr) :
  match Sidebar.create_group now_group_id cm name_entry selected with
  | None => strip name_entry = [] \/ (length selected < 2)%nat
  | Some (cm', group_id, _) =>
      exists group,
        ChatManager.groups cm' !! group_id = Some group /\
        Group.name group = strip name_entry /\ Group.name group <> [] /\
        Group.members group = selected /\ (2 <= length selected)%nat /\
        ChatManager.chats cm' !! group_id = Some []
  end.
Proof.
  unfold Sidebar.create_group. destruct (is_empty (strip name_entry)) eqn:En.
  - left. now apply is_empty_true.
  - destruct (length selected <? 2)%nat eqn:El.
    + right. now apply Nat.ltb_lt.
    + apply Nat.ltb_ge in El. unfold ChatManager.create_group.
      cbn [ChatManager.groups ChatManager.chats]. eexists.
      rewrite !lookup_insert_eq. split; [reflexivity|]. cbn [Group.name Group.members].
      split; [reflexivity|]. split; [now apply strip_nil_or_cons|].
      split; [reflexivity|]. split; [exact El | reflexivity].
Qed.

(** ** The prompt window *)

Lemma lastn_app_exact {A} (n : nat) (old recent : list A) :
  length recent = n -> lastn n (old ++ recent) = recent.
Proof.
  intros H. unfold lastn. rewrite length_app.
  replace (length old + length recent - n)%nat with (length old) by lia.
  now rewrite drop_app_length.
Qed.

Lemma fold_history_ext (cm1 cm2 : ChatManager.t) (l : list Message.t) :
  ChatManager.characters cm1 = ChatManager.characters cm2 ->
  forall acc,
    fold_left (ChatManager.add_history_line cm1) l acc
    = fold_left (ChatManager.add_history_line cm2) l acc.
Proof.
  intros Hc. induction l as [|msg l IH]; intros acc; [reflexivity|].
  cbn [fold_left]. rewrite IH. f_equal.
  unfold ChatManager.add_history_line, ChatManager.name_of. now rewrite Hc.
Qed.

(** The prompt reads the last fifteen messages of the chat and nothing
    older: two managers with the same personas and groups, whose histories
    of the chat end with the same fifteen messages, build the same prompt,
    whatever came before. *)
Theorem prompt_reads_last_fifteen (cm1 cm2 : ChatManager.t) (chat_id : pystr)
    (character : Character.t) (is_group : bool)
    (old1 old2 recent : list Message.t)
    (Hchars : ChatManager.characters cm1 = ChatManager.characters cm2)
    (Hgroups : ChatManager.groups cm1 = ChatManager.groups cm2)
    (H1 : ChatManager.chats cm1 !! chat_id = Some (old1 ++ recent))
    (H2 : ChatManager.chats cm2 !! chat_id = Some (old2 ++ recent))
    (Hlen : length recent = 15%nat) :
  ChatManager.build_prompt cm1 chat_id character is_group
  = ChatManager.build_prompt cm2 chat_id character is_group.
Proof.
  assert (ChatManager.history_text cm1 chat_id = ChatManager.history_text cm2 chat_id)
    as Hh.
  { unfold ChatManager.history_text, ChatManager.api_window. rewrite H1, H2.
    cbn [default from_option id]. unfold MAX_MESSAGES_FOR_API.
    rewrite !lastn_app_exact by assumption. now apply fold_history_ext. }
  unfold ChatManager.build_prompt. rewrite Hh, Hgroups.
  destruct is_group; [|reflexivity].
  destruct (ChatManager.groups cm2 !! chat_id); [|reflexivity].
  unfold ChatManager.name_of. now rewrite Hchars.
Qed.

Lemma prompt_reads_last_fifteen_witness :
  let said := fun k : nat =>
    Message.mk (Sample.clock_id k) (if Nat.even k then USER else py "bob")
               (Sample.digits 20 (N.of_nat k)) (Sample.clock_iso k) TEXT [] in
  let recent := map said (seq 2 15) in
  let prompt := fun history : list Message.t =>
    ChatManager.build_prompt (Sample.manager [] (<[py "bob" := history]> ∅))
      (py "bob") Sample.bob false in
  prompt ([said 1%nat] ++ recent) = prompt ([said 40%nat; said 0%nat] ++ recent) /\
  prompt ([said 1%nat] ++ recent) <> prompt (drop 1 recent) /\
  prompt ([said 1%nat] ++ recent)
  <> prompt ([said 1%nat] ++ map said (seq 2 14) ++ [said 99%nat]).
Proof.
  intros said recent prompt. unfold prompt. split; [|split].
  - apply (prompt_reads_last_fifteen _ _ _ _ _ [said 1%nat] [said 40%nat; said 0%nat]
             recent).
    + reflexivity.
    + reflexivity.
    + vm_compute. reflexivity.
    + vm_compute. reflexivity.
    + reflexivity.
  - vm_compute. discriminate.
  - vm_compute. discriminate.
Defined.


(** ** Turns of [ChatArea] *)

Section AreaTurns.

Variable now_msg_id now_isoformat : nat -> pystr.
Variable send_message : nat -> pystr -> pystr.

(** What a group turn of [ChatArea] can do, however it ends. It appends to
    the open chat and only there; the messages it appends are text
    messages of members that have a persona, in the order of the member
    list, at most one for each place in that list; none of them holds
    [[IGNORE]]; the personas and the groups are left as they were. *)
Theorem area_group_turn (members : list pystr) :
  forall (cm : ChatManager.t) (chat_id : pystr) (calls : nat),
    let r := ChatArea.group_loop now_msg_id now_isoformat send_message cm chat_id
               members calls in
    exists added,
      ChatManager.get_chat_messages (fst r) chat_id
      = ChatManager.get_chat_messages cm chat_id ++ added /\
      sublist (map Message.sender added) members /\
      Forall (fun msg => Message.msg_type msg = TEXT /\
                         contains IGNORE (Message.text msg) = false /\
                         is_Some (ChatManager.characters cm !! Message.sender msg))
             added /\
      ChatManager.characters (fst r) = ChatManager.characters cm /\
      ChatManager.groups (fst r) = ChatManager.groups cm /\
      forall other, other <> chat_id ->
        ChatManager.chats (fst r) !! other = ChatManager.chats cm !! other.
Proof.
  induction members as [|member_id rest IH]; intros cm chat_id calls r.
  - exists []. subst r. cbn [ChatArea.group_loop fst map]. rewrite app_nil_r.
    repeat split; auto; constructor.
  - subst r. cbn [ChatArea.group_loop].
    destruct (ChatManager.characters cm !! member_id) as [character|] eqn:Hc.
    2:{ destruct (IH cm chat_id calls) as (added & H1 & H2 & H3 & H4).
        exists added. repeat split; try tauto. now apply sublist_cons. }
    destruct (ChatManager.build_prompt cm chat_id character true) as [prompt|e|].
    2,3: exists []; cbn [fst map]; rewrite app_nil_r; repeat split; auto;
      solve [constructor | apply sublist_nil_l].
    destruct (contains IGNORE (send_message calls prompt)) eqn:Hi.
    { destruct (IH cm chat_id (S calls)) as (added & H1 & H2 & H3 & H4).
      exists added. repeat split; try tauto. now apply sublist_cons. }
    destruct (add_message_frame now_msg_id now_isoformat cm chat_id member_id (send_message calls prompt) TEXT [])
      as (Hh & _ & Hchars & Hgroups & Hother).
    set (cm1 := fst (ChatManager.add_message now_msg_id now_isoformat cm chat_id
                       member_id (send_message calls prompt) TEXT [])) in *.
    destruct (IH cm1 chat_id (S calls)) as (added & H1 & H2 & H3 & H4 & H5 & H6).
    eexists (_ :: added). split; [|split; [|split; [|split; [|split]]]].
    + rewrite H1, Hh, <- app_assoc. reflexivity.
    + cbn [map Message.sender]. now apply sublist_skip.
    + constructor.
      * cbn [Message.msg_type Message.text Message.sender]. rewrite Hc. eauto.
      * eapply Forall_impl; [exact H3|]. intros msg (? & ? & ?).
        rewrite Hchars in *. auto.
    + now rewrite H4.
    + now rewrite H5.
    + intros other Ho. rewrite (H6 other Ho). now apply Hother.
Qed.

Lemma lastn_snoc_app {A} (n : nat) (l : list A) (x : A) :
  lastn (S n) (l ++ [x]) = lastn n l ++ [x].
Proof.
  unfold lastn. rewrite length_app. cbn [length].
  replace (length l + 1 - S n)%nat with (length l - n)%nat by lia.
  rewrite drop_app_le by lia. reflexivity.
Qed.

(** A private exchange: [send_message] followed by the worker it starts,
    with nothing else in between. The user's text, stripped, is stored as
    a message of [user]; the prompt built next ends its history block with
    the line of that message; the reply to that prompt is stored after it,
    as a text message of the persona and as it came, [[IGNORE]] or not.
    The chat has grown by exactly these two messages. *)
Theorem private_exchange (cm : ChatManager.t) (chat_id input : pystr)
    (character : Character.t)
    (Hchat : chat_id <> [])
    (Htext : strip input <> [])
    (Hprivate : ChatManager.groups cm !! chat_id = None)
    (Hpersona : ChatManager.characters cm !! chat_id = Some character) :
  let sent := ChatArea.send_message now_msg_id now_isoformat cm (Some chat_id) input in
  let turn := ChatArea.get_character_response now_msg_id now_isoformat send_message
                (fst sent) chat_id in
  let user_message :=
    Message.mk (now_msg_id (ChatManager.ticks cm)) USER (strip input)
               (now_isoformat (ChatManager.ticks cm)) TEXT [] in
  exists block,
    let prompt :=
      Character.private_prompt character ++ nl ++ nl ++ py "История переписки:" ++ nl
      ++ (block ++ py "Пользователь: " ++ strip input ++ nl) ++ nl
      ++ py "Ответь на последнее сообщение." in
    snd sent = true /\ snd turn = Ok tt /\
    ChatManager.get_chat_messages (fst turn) chat_id
    = ChatManager.get_chat_messages cm chat_id
      ++ [user_message;
          Message.mk (now_msg_id (S (ChatManager.ticks cm))) chat_id
                     (send_message 0%nat prompt)
                     (now_isoformat (S (ChatManager.ticks cm))) TEXT []].
Proof.
  intros sent turn user_message.
  assert (sent = (fst (ChatManager.add_message now_msg_id now_isoformat cm chat_id
                          USER (strip input) TEXT []), true)) as Hsent.
  { unfold sent, ChatArea.send_message.
    destruct chat_id; [congruence|]. destruct (strip input); [congruence|]. reflexivity. }
  destruct (add_message_frame now_msg_id now_isoformat cm chat_id USER (strip input) TEXT [])
    as (Hh & Hticks & Hchars & Hgroups & _).
  set (cm1 := fst (ChatManager.add_message now_msg_id now_isoformat cm chat_id
                     USER (strip input) TEXT [])) in *.
  exists (concat (map (history_line cm1)
                    (lastn 14 (ChatManager.get_chat_messages cm chat_id)))).
  cbv zeta. rewrite Hsent. cbn [fst snd]. split; [reflexivity|].
  unfold turn. rewrite Hsent. cbn [fst]. unfold ChatArea.get_character_response.
  rewrite Hgroups, Hprivate, Hchars, Hpersona.
  assert (ChatManager.history_text cm1 chat_id
          = concat (map (history_line cm1)
                      (lastn 14 (ChatManager.get_chat_messages cm chat_id)))
            ++ py "Пользователь: " ++ strip input ++ nl) as Hblock.
  { unfold ChatManager.history_text, ChatManager.api_window.
    change (default [] (ChatManager.chats cm1 !! chat_id))
      with (ChatManager.get_chat_messages cm1 chat_id).
    rewrite Hh. unfold MAX_MESSAGES_FOR_API. rewrite lastn_snoc_app, history_fold.
    cbn [app]. rewrite map_app, concat_app. cbn [map concat]. rewrite app_nil_r.
    reflexivity. }
  unfold ChatManager.build_prompt. cbn [bind]. rewrite Hblock.
  cbn [fst snd]. split; [reflexivity|].
  match goal with
  | |- ChatManager.get_chat_messages
         (fst (ChatManager.add_message _ _ _ _ ?s ?t ?ty ?p)) _ = _ =>
      destruct (add_message_frame now_msg_id now_isoformat cm1 chat_id s t ty p) as (Hh2 & _)
  end.
  rewrite Hh2, Hh, Hticks, <- app_assoc. reflexivity.
Qed.

End AreaTurns.

Lemma private_exchange_witness :
  ChatManager.get_chat_messages
    (fst (ChatArea.get_character_response Sample.clock_id Sample.clock_iso
            (fun _ _ => py "[IGNORE]")
            (fst (ChatArea.send_message Sample.clock_id Sample.clock_iso
                    (Sample.manager [] ∅) (Some (py "bob")) (py "  hi  ")))
            (py "bob")))
    (py "bob")
  = [Message.mk (Sample.clock_id 0) USER (py "hi") (Sample.clock_iso 0) TEXT [];
     Message.mk (Sample.clock_id 1) (py "bob") (py "[IGNORE]") (Sample.clock_iso 1)
                TEXT []].
Proof.
  destruct (private_exchange Sample.clock_id Sample.clock_iso (fun _ _ => py "[IGNORE]")
              (Sample.manager [] ∅) (py "bob") (py "  hi  ") Sample.bob)
    as (block & _ & _ & H).
  - vm_compute. discriminate.
  - vm_compute. discriminate.
  - vm_compute. reflexivity.
  - vm_compute. reflexivity.
  - rewrite H. reflexivity.
Defined.


(** ** Turns of [MessengerApp] *)

Section AppTurns.

Variable unicode_alnum : N -> bool.
Variable path_exists : pystr -> bool.
Variable now_msg_id now_isoformat : nat -> pystr.
Variable api : nat -> pystr -> MessengerApp.char_data -> pystr.

Local Abbreviation process_character_response :=
  (MessengerApp.process_character_response unicode_alnum path_exists now_msg_id
     now_isoformat).
Local Abbreviation group_loop :=
  (MessengerApp.group_loop unicode_alnum path_exists now_msg_id now_isoformat api).
Local Abbreviation get_character_response :=
  (MessengerApp.get_character_response unicode_alnum path_exists now_msg_id
     now_isoformat api).
Local Abbreviation send_message :=
  (MessengerApp.send_message now_msg_id now_isoformat).

Lemma same_frame_refl (st : MessengerApp.t) : same_frame st st.
Proof. repeat split; auto. Qed.

Lemma same_frame_trans (a b c : MessengerApp.t) :
  same_frame a b -> same_frame b c -> same_frame a c.
Proof.
  intros (H1 & H2 & H3 & H4 & H5) (G1 & G2 & G3 & G4 & G5).
  repeat split; try congruence. intros other.
  destruct (H5 other) as [-> | Ho]; [now left|].
  destruct (G5 other) as [-> | Go]; [left; congruence | right; congruence].
Qed.

Lemma append_effect (st : MessengerApp.t) (m : MessengerApp.msg) :
  match MessengerApp.append_current (MessengerApp.tick st) m with
  | Ok st1 =>
      let st' := MessengerApp.save_chat_history st1 (MessengerApp.current_chat_id st1) in
      same_frame st st' /\ MessengerApp.slept st' = MessengerApp.slept st /\
      exists history,
        MessengerApp.chats st !! MessengerApp.current_chat_id st = Some history /\
        MessengerApp.chats st' !! MessengerApp.current_chat_id st
        = Some (history ++ [m])
  | Raise e =>
      e = KeyError (MessengerApp.current_chat_id st) /\
      MessengerApp.chats st !! MessengerApp.current_chat_id st = None
  | Unmodelled => False
  end.
Proof.
  unfold MessengerApp.append_current.
  cbn [MessengerApp.tick MessengerApp.chats MessengerApp.current_chat_id].
  destruct (MessengerApp.chats st !! MessengerApp.current_chat_id st) as [h|] eqn:E;
    [|split; reflexivity].
  cbv zeta. split; [|split; [reflexivity|]].
  - repeat split; try reflexivity. intros other.
    destruct (decide (other = MessengerApp.current_chat_id st)) as [-> | Hne];
      [now left | right].
    cbn. now rewrite lookup_insert_ne by congruence.
  - exists h. split; [reflexivity|]. cbn. apply lookup_insert_eq.
Qed.

Lemma process_effect (st : MessengerApp.t) (response : pystr)
    (character : MessengerApp.char_data) (sender_id : pystr) :
  match process_character_response st response character sender_id with
  | Ok st' =>
      same_frame st st' /\ MessengerApp.slept st' = MessengerApp.slept st /\
      exists added,
        default [] (MessengerApp.chats st' !! MessengerApp.current_chat_id st)
        = default [] (MessengerApp.chats st !! MessengerApp.current_chat_id st)
          ++ added /\
        (length added <= 1)%nat /\
        Forall (reply_message path_exists sender_id response) added
  | Raise e =>
      e = KeyError (MessengerApp.current_chat_id st) /\
      MessengerApp.chats st !! MessengerApp.current_chat_id st = None
  | Unmodelled => False
  end.
Proof.
  assert (same_frame st st /\ MessengerApp.slept st = MessengerApp.slept st /\
          exists added,
            default [] (MessengerApp.chats st !! MessengerApp.current_chat_id st)
            = default [] (MessengerApp.chats st !! MessengerApp.current_chat_id st)
              ++ added /\
            (length added <= 1)%nat /\
            Forall (reply_message path_exists sender_id response) added) as Hsame.
  { split; [apply same_frame_refl|]. split; [reflexivity|]. exists [].
    rewrite app_nil_r. repeat split; [cbn; lia | constructor]. }
  unfold MessengerApp.process_character_response.
  destruct (if contains (py "[PHOTO:") response
            then MessengerApp.search_photo unicode_alnum response else None)
    as [token|].
  - unfold MessengerApp.send_character_photo.
    destruct (MessengerApp.find_photo character token (MessengerApp.photos character))
      as [photo_path|]; [|exact Hsame].
    destruct (is_empty photo_path || negb (path_exists photo_path)) eqn:Eg;
      [exact Hsame|].
    apply orb_false_iff in Eg as [_ Eg]. apply negb_false_iff in Eg.
    match goal with
    | |- context [MessengerApp.append_current _ ?m] =>
        pose proof (append_effect st m) as Ha;
        destruct (MessengerApp.append_current (MessengerApp.tick st) m) as [st1|e|]
    end; cbn [bind]; [|exact Ha|exact Ha].
    destruct Ha as (Hf & Hs & h & Hh & Hh'). split; [exact Hf|]. split; [exact Hs|].
    eexists [_]. rewrite Hh, Hh'. split; [reflexivity|]. split; [cbn; lia|].
    constructor; [|constructor]. split; [reflexivity|]. right.
    split; [reflexivity|]. eauto.
  - match goal with
    | |- context [MessengerApp.append_current _ ?m] =>
        pose proof (append_effect st m) as Ha;
        destruct (MessengerApp.append_current (MessengerApp.tick st) m) as [st1|e|]
    end; cbn [bind]; [|exact Ha|exact Ha].
    destruct Ha as (Hf & Hs & h & Hh & Hh'). split; [exact Hf|]. split; [exact Hs|].
    eexists [_]. rewrite Hh, Hh'. split; [reflexivity|]. split; [cbn; lia|].
    constructor; [|constructor]. split; [reflexivity|]. left. split; reflexivity.
Qed.

(** Storing a reply. [process_character_response] appends at most one
    message, to the open chat: a text message carrying the reply as it
    came, or a photo message whose file exists on disk; both bear the
    sender given. It raises only when the open chat has no history. *)
Theorem reply_effect (st : MessengerApp.t) (response : pystr)
    (character : MessengerApp.char_data) (sender_id : pystr) :
  match process_character_response st response character sender_id with
  | Ok st' =>
      same_frame st st' /\ MessengerApp.slept st' = MessengerApp.slept st /\
      exists added,
        default [] (MessengerApp.chats st' !! MessengerApp.current_chat_id st)
        = default [] (MessengerApp.chats st !! MessengerApp.current_chat_id st)
          ++ added /\
        (length added <= 1)%nat /\
        Forall (reply_message path_exists sender_id response) added
  | Raise e =>
      e = KeyError (MessengerApp.current_chat_id st) /\
      MessengerApp.chats st !! MessengerApp.current_chat_id st = None
  | Unmodelled => False
  end.
Proof. apply process_effect. Qed.

Lemma build_prompt_sleep (st : MessengerApp.t) character chat_type group_context :
  MessengerApp.build_prompt (MessengerApp.sleep1 st) character chat_type group_context
  = MessengerApp.build_prompt st character chat_type group_context.
Proof. reflexivity. Qed.

Lemma process_frame (st : MessengerApp.t) (response : pystr)
    (character : MessengerApp.char_data) (sender_id : pystr) :
  match process_character_response st response character sender_id with
  | Ok st' =>
      same_frame st st' /\ MessengerApp.slept st' = MessengerApp.slept st /\
      exists added,
        default [] (MessengerApp.chats st' !! MessengerApp.current_chat_id st)
        = default [] (MessengerApp.chats st !! MessengerApp.current_chat_id st)
          ++ added /\
        (length added <= 1)%nat /\
        Forall (fun m => MessengerApp.m_sender m = sender_id) added
  | _ => True
  end.
Proof.
  pose proof (process_effect st response character sender_id) as H.
  destruct (process_character_response st response character sender_id); [|exact I..].
  destruct H as (Hf & Hs & added & Ha & Hl & Hall). split; [exact Hf|].
  split; [exact Hs|]. exists added. split; [exact Ha|]. split; [exact Hl|].
  eapply Forall_impl; [exact Hall|]. now intros m [Hm _].
Qed.

Lemma sleep_frame (st : MessengerApp.t) : same_frame st (MessengerApp.sleep1 st).
Proof. repeat split; auto. Qed.

Lemma group_loop_effect (group : MessengerApp.group_data) (members : list pystr) :
  forall (st : MessengerApp.t) (calls : nat),
    let st' := fst (group_loop st group members calls) in
    same_frame st st' /\
    exists added,
      default [] (MessengerApp.chats st' !! MessengerApp.current_chat_id st)
      = default [] (MessengerApp.chats st !! MessengerApp.current_chat_id st)
        ++ added /\
      (length added + MessengerApp.slept st <= MessengerApp.slept st')%nat /\
      (MessengerApp.slept st' <= MessengerApp.slept st + length members)%nat /\
      Forall (fun m => In (MessengerApp.m_sender m) members) added.
Proof.
  induction members as [|member_id rest IH]; intros st calls st'.
  - subst st'. cbn [MessengerApp.group_loop fst]. split; [apply same_frame_refl|].
    exists []. rewrite app_nil_r. cbn [length]. repeat split; try lia. constructor.
  - assert (forall st0 calls0,
              fst (group_loop st0 group rest calls0) = st' ->
              same_frame st st0 ->
              forall added0,
                default [] (MessengerApp.chats st0 !! MessengerApp.current_chat_id st)
                = default [] (MessengerApp.chats st !! MessengerApp.current_chat_id st)
                  ++ added0 ->
                (length added0 + MessengerApp.slept st <= MessengerApp.slept st0)%nat ->
                (MessengerApp.slept st0 <= MessengerApp.slept st + 1)%nat ->
                Forall (fun m => MessengerApp.m_sender m = member_id) added0 ->
                same_frame st st' /\
                exists added,
                  default [] (MessengerApp.chats st' !! MessengerApp.current_chat_id st)
                  = default [] (MessengerApp.chats st !! MessengerApp.current_chat_id st)
                    ++ added /\
                  (length added + MessengerApp.slept st <= MessengerApp.slept st')%nat /\
                  (MessengerApp.slept st' <= MessengerApp.slept st + length (member_id :: rest))%nat /\
                  Forall (fun m => In (MessengerApp.m_sender m) (member_id :: rest)) added)
      as Hstep.
    { intros st0 calls0 Hst' Hf0 added0 Hadd0 Hlen0 Hsl0 Hall0.
      destruct (IH st0 calls0) as (Hf & added & Hadd & Hlen & Hsl & Hall).
      rewrite Hst' in *. pose proof Hf0 as (_ & _ & Hcur & _).
      split; [eapply same_frame_trans; eassumption|].
      exists (added0 ++ added). rewrite Hcur in Hadd. rewrite Hadd, Hadd0, app_assoc.
      split; [reflexivity|]. rewrite length_app. cbn [length].
      split; [lia|]. split; [lia|]. apply Forall_app. split.
      - eapply Forall_impl; [exact Hall0|]. intros m ->. now left.
      - eapply Forall_impl; [exact Hall|]. intros m Hm. now right. }
    assert (forall calls0,
              fst (group_loop st group rest calls0) = st' ->
              same_frame st st' /\
              exists added,
                default [] (MessengerApp.chats st' !! MessengerApp.current_chat_id st)
                = default [] (MessengerApp.chats st !! MessengerApp.current_chat_id st)
                  ++ added /\
                (length added + MessengerApp.slept st <= MessengerApp.slept st')%nat /\
                (MessengerApp.slept st' <= MessengerApp.slept st + length (member_id :: rest))%nat /\
                Forall (fun m => In (MessengerApp.m_sender m) (member_id :: rest)) added)
      as Hskip.
    { intros calls0 Hst'. apply (Hstep st calls0 Hst' (same_frame_refl st) []).
      - now rewrite app_nil_r.
      - cbn [length]. lia.
      - lia.
      - constructor. }
    subst st'. cbn [MessengerApp.group_loop] in *.
    destruct (MessengerApp.characters st !! member_id) as [character|];
      [|now apply (Hskip calls)].
    destruct (MessengerApp.build_prompt st character (py "group") (Some group))
      as [prompt|e|].
    2,3: cbn [fst]; (split; [apply same_frame_refl|]); exists []; rewrite app_nil_r;
      cbn [length]; repeat split; try lia; constructor.
    destruct (contains IGNORE (api calls prompt character)); [now apply (Hskip (S calls))|].
    pose proof (process_frame (MessengerApp.sleep1 st) (api calls prompt character)
                  character member_id) as Hp.
    destruct (process_character_response (MessengerApp.sleep1 st)
                (api calls prompt character) character member_id) as [st2|e|].
    + destruct Hp as (Hf & Hs & added0 & Hadd0 & Hlen0 & Hall0).
      apply (Hstep st2 (S calls) eq_refl
               (same_frame_trans _ _ _ (sleep_frame st) Hf) added0).
      * exact Hadd0.
      * rewrite Hs. cbn [MessengerApp.sleep1 MessengerApp.slept]. lia.
      * rewrite Hs. cbn [MessengerApp.sleep1 MessengerApp.slept]. lia.
      * exact Hall0.
    + apply (Hstep (MessengerApp.sleep1 st) (S calls) eq_refl (sleep_frame st) []).
      * now rewrite app_nil_r.
      * cbn [length MessengerApp.sleep1 MessengerApp.slept]. lia.
      * cbn [MessengerApp.sleep1 MessengerApp.slept]. lia.
      * constructor.
    + cbn [fst]. split; [apply sleep_frame|]. exists []. rewrite app_nil_r.
      cbn [length MessengerApp.sleep1 MessengerApp.slept]. repeat split; try lia.
      constructor.
Qed.

(** What a group turn of [MessengerApp] can do, however it ends. It
    appends to the open chat and only there, messages whose senders are
    members of the group; before each message it appends it has paused one
    second, a member that ignores costs no pause, and the pauses are no
    more than the members; the personas, the groups, the open chat and the
    typing indicators are left as they were. *)
Theorem app_group_turn (group : MessengerApp.group_data) (members : list pystr) :
  forall (st : MessengerApp.t) (calls : nat),
    let st' := fst (group_loop st group members calls) in
    same_frame st st' /\
    exists added,
      default [] (MessengerApp.chats st' !! MessengerApp.current_chat_id st)
      = default [] (MessengerApp.chats st !! MessengerApp.current_chat_id st)
        ++ added /\
      (length added + MessengerApp.slept st <= MessengerApp.slept st')%nat /\
      (MessengerApp.slept st' <= MessengerApp.slept st + length members)%nat /\
      Forall (fun m => In (MessengerApp.m_sender m) members) added.
Proof. apply group_loop_effect. Qed.

Lemma typing_frame (st : MessengerApp.t) (b : bool) :
  MessengerApp.current_chat_id (MessengerApp.set_typing st b)
  = MessengerApp.current_chat_id st /\
  MessengerApp.typing_indicators (MessengerApp.set_typing st b)
  !! MessengerApp.current_chat_id st = Some b.
Proof. split; [reflexivity|]. cbn. apply lookup_insert_eq. Qed.

Lemma private_frame (st : MessengerApp.t) :
  same_frame st
    (fst (MessengerApp.handle_private_response unicode_alnum path_exists now_msg_id
            now_isoformat api st)).
Proof.
  unfold MessengerApp.handle_private_response.
  destruct (MessengerApp.characters st !! MessengerApp.current_chat_id st)
    as [character|]; [|apply same_frame_refl].
  destruct (MessengerApp.build_prompt st character (py "private") None)
    as [prompt|e|]; [|apply same_frame_refl..].
  pose proof (process_effect st (api 0%nat prompt character) character
                (MessengerApp.current_chat_id st)) as Hp.
  destruct (process_character_response st (api 0%nat prompt character) character
              (MessengerApp.current_chat_id st)) as [st1|e|].
  - now destruct Hp as [Hf _].
  - destruct Hp as [_ Hnone]. unfold MessengerApp.append_current.
    cbn [MessengerApp.tick MessengerApp.chats MessengerApp.current_chat_id].
    rewrite Hnone. apply same_frame_refl.
  - apply same_frame_refl.
Qed.

(** The typing indicator. The worker of a turn leaves the open chat as it
    is, and leaves its indicator cleared when it returns normally; when it
    ends on an exception, the indicator stays set. *)
Theorem typing_indicator_after_turn (st : MessengerApp.t) :
  let r := get_character_response st in
  MessengerApp.current_chat_id (fst r) = MessengerApp.current_chat_id st /\
  match snd r with
  | Ok _ =>
      MessengerApp.typing_indicators (fst r) !! MessengerApp.current_chat_id st
      = Some false
  | Raise _ =>
      MessengerApp.typing_indicators (fst r) !! MessengerApp.current_chat_id st
      = Some true
  | Unmodelled => True
  end.
Proof.
  intros r. subst r. unfold MessengerApp.get_character_response.
  set (st1 := MessengerApp.show_typing_indicator st).
  assert (forall h : MessengerApp.t * result unit,
            same_frame st1 (fst h) ->
            let r := (let '(st0, r0) := h in
                      match r0 with
                      | Ok _ => (MessengerApp.hide_typing_indicator st0, Ok tt)
                      | _ => (st0, r0)
                      end) in
            MessengerApp.current_chat_id (fst r) = MessengerApp.current_chat_id st /\
            match snd r with
            | Ok _ =>
                MessengerApp.typing_indicators (fst r)
                !! MessengerApp.current_chat_id st = Some false
            | Raise _ =>
                MessengerApp.typing_indicators (fst r)
                !! MessengerApp.current_chat_id st = Some true
            | Unmodelled => True
            end) as Hwrap.
  { intros [st0 r0] (_ & _ & Hcur & Hty & _). cbn [fst] in Hcur, Hty. cbv zeta.
    destruct (typing_frame st true) as [Hc1 Ht1].
    unfold st1, MessengerApp.show_typing_indicator in Hcur, Hty.
    destruct r0 as [u|e|]; cbn [fst snd].
    - destruct (typing_frame st0 false) as [Hc0 Ht0].
      unfold MessengerApp.hide_typing_indicator. split; [congruence|].
      rewrite <- Hc1, <- Hcur. exact Ht0.
    - split; [congruence|]. rewrite Hty. exact Ht1.
    - split; [congruence | exact I]. }
  destruct (bool_decide (is_Some (MessengerApp.groups st1
                                    !! MessengerApp.current_chat_id st1))).
  - apply Hwrap. unfold MessengerApp.handle_group_response.
    destruct (MessengerApp.groups st1 !! MessengerApp.current_chat_id st1)
      as [group|]; [|apply same_frame_refl].
    apply group_loop_effect.
  - apply Hwrap. apply private_frame.
Qed.

(** Sending. A blank entry, or no open chat, changes nothing and starts no
    worker. Otherwise the stripped text is stored as a text message of
    [user] at the end of the open chat, the chat file is written with the
    last hundred messages, and the worker is started: whatever reply it
    gets, storing it cannot fail. *)
Theorem user_message_then_reply (st : MessengerApp.t) (input : pystr) :
  let r := send_message st input in
  let user_message :=
    {| MessengerApp.m_id := now_msg_id (MessengerApp.ticks st);
       MessengerApp.m_sender := USER;
       MessengerApp.m_text := Some (strip input);
       MessengerApp.m_timestamp := now_isoformat (MessengerApp.ticks st);
       MessengerApp.m_type := TEXT; MessengerApp.m_photo_path := None |} in
  let history :=
    default [] (MessengerApp.chats st !! MessengerApp.current_chat_id st)
    ++ [user_message] in
  (r = (st, false) /\ (MessengerApp.current_chat_id st = [] \/ strip input = [])) \/
  (snd r = true /\ MessengerApp.current_chat_id st <> [] /\ strip input <> [] /\
   same_frame st (fst r) /\
   MessengerApp.chats (fst r) !! MessengerApp.current_chat_id st = Some history /\
   (exists data,
      MessengerApp.files (fst r) !! MessengerApp.current_chat_id st = Some data /\
      MessengerApp.f_messages data = lastn MAX_MESSAGES_IN_HISTORY history) /\
   forall response character sender_id,
     exists st',
       process_character_response (fst r) response character sender_id = Ok st').
Proof.
  intros r user_message history. subst r. unfold MessengerApp.send_message.
  destruct (is_empty (MessengerApp.current_chat_id st)) eqn:Ec.
  { left. split; [reflexivity|]. left. now apply is_empty_true. }
  destruct (is_empty (strip input)) eqn:Et.
  { left. split; [reflexivity|]. right. now apply is_empty_true. }
  right. cbv zeta. fold user_message. fold history.
  cbn [fst snd MessengerApp.set_chats MessengerApp.tick MessengerApp.current_chat_id].
  set (st' := MessengerApp.save_chat_history _ _).
  assert (MessengerApp.chats st' !! MessengerApp.current_chat_id st = Some history)
    as Hchat by (cbn; apply lookup_insert_eq).
  split; [reflexivity|].
  split; [intros H; rewrite H in Ec; discriminate|].
  split; [intros H; rewrite H in Et; discriminate|].
  split; [|split; [exact Hchat|split]].
  - repeat split; try reflexivity. intros other.
    destruct (decide (other = MessengerApp.current_chat_id st)) as [-> | Hne];
      [now left | right]. cbn. now rewrite lookup_insert_ne by congruence.
  - eexists. split; [cbn; apply lookup_insert_eq|]. cbn.
    now rewrite lookup_insert_eq.
  - intros response character sender_id.
    pose proof (process_effect st' response character sender_id) as Hp.
    destruct (process_character_response st' response character sender_id)
      as [st2|e|]; [eauto| |destruct Hp].
    destruct Hp as [_ Hnone]. change (MessengerApp.current_chat_id st')
      with (MessengerApp.current_chat_id st) in Hnone. congruence.
Qed.

(** The preview of a chat in the list is never longer than 43 characters:
    a text of more than forty is cut to forty and followed by three dots.
    For a last message that bears a type, as every message the application
    stores does, the only failure is a message of type text without
    text. *)
Theorem preview_is_bounded (st : MessengerApp.t) (chat_id : pystr) :
  match MessengerApp.get_last_message_preview st chat_id with
  | Ok preview => (length preview <= 43)%nat
  | Raise e => e = KeyError TEXT
  | Unmodelled => False
  end.
Proof.
  unfold MessengerApp.get_last_message_preview.
  destruct (last (default [] (MessengerApp.chats st !! chat_id))) as [last_msg|];
    [|vm_compute; lia].
  destruct (pystr_eqb (MessengerApp.m_type last_msg) TEXT).
  - destruct (MessengerApp.m_text last_msg) as [text|]; [|reflexivity].
    destruct (40 <? length text)%nat eqn:E.
    + rewrite length_app, length_take. change (length (py "...")) with 3%nat. lia.
    + apply Nat.ltb_ge in E. lia.
  - destruct (pystr_eqb (MessengerApp.m_type last_msg) PHOTO); [vm_compute; lia|].
    cbn. lia.
Qed.

End AppTurns.

(** ** The dispatchers *)

Section Dispatchers.

Import MessengerAPI_text APIManager_text.

Variable env : environment.

Ltac split_dispatch :=
  repeat match goal with
         | |- context [match ?x with _ => _ end] =>
             lazymatch x with
             | context [match _ with _ => _ end] => fail
             | _ => destruct x eqn:?
             end
         end.

Ltac unfold_api :=
  unfold MessengerAPI.send_message, MessengerAPI.send_claude, MessengerAPI.send_gemini,
    MessengerAPI.send_openrouter, MessengerAPI.send_chutes, MessengerAPI.send_deepseek;
  cbv zeta.

Ltac unfold_manager :=
  unfold APIManager.send_message, APIManager._send_claude, APIManager._send_gemini,
    APIManager._send_openai_compatible, APIManager._send_deepseek;
  cbv zeta.

(** A request carries the call. Whatever request a dispatcher makes holds
    the prompt as it was given, and the limits of the call: for
    [MessengerAPI] those of the persona's settings, 300 tokens and a
    temperature of 0.7 where the settings are silent. *)
Theorem request_carries_the_call (prompt : pystr) :
  (forall config settings,
      Forall (fun rq =>
                request_prompt rq = prompt /\
                request_limits rq
                = (default 300%Z (MessengerAPI.max_tokens settings),
                   default (7 # 10)%Q (MessengerAPI.temperature settings)))
             (snd (MessengerAPI.send_message env config prompt settings))) /\
  (forall am temperature max_tokens,
      Forall (fun rq =>
                request_prompt rq = prompt /\
                request_limits rq = (max_tokens, temperature))
             (snd (APIManager.send_message env am prompt temperature max_tokens))).
Proof.
  split.
  - intros config settings. unfold_api.
    split_dispatch; cbn [snd]; repeat constructor.
  - intros am temperature max_tokens. unfold_manager.
    split_dispatch; cbn [snd]; repeat constructor.
Qed.

Lemma singleton_inj {A : Type} (x y : A) : [x] = [y] -> x = y.
Proof. now intros [= ->]. Qed.

Lemma text_reply_api (prompt : pystr) (rq : request) (raw : pystr)
    (config : gmap pystr provider_data) (settings : MessengerAPI.api_settings) :
  net env rq = Text raw ->
  snd (MessengerAPI.send_message env config prompt settings) = [rq] ->
  fst (MessengerAPI.send_message env config prompt settings) = clean_text raw.
Proof.
  intros Hnet. unfold_api.
  split_dispatch; cbv [snd fst]; intros H;
    lazymatch type of H with
    | [] = _ => discriminate H
    | _ => apply singleton_inj in H; subst rq; congruence
    end.
Qed.

Lemma text_reply_manager (prompt : pystr) (rq : request) (raw : pystr)
    (am : APIManager.t) (temperature : Q) (max_tokens : Z) :
  net env rq = Text raw ->
  snd (APIManager.send_message env am prompt temperature max_tokens) = [rq] ->
  fst (APIManager.send_message env am prompt temperature max_tokens) = _clean_text raw.
Proof.
  intros Hnet. unfold_manager.
  split_dispatch; cbv [snd fst]; intros H;
    lazymatch type of H with
    | [] = _ => discriminate H
    | _ => apply singleton_inj in H; subst rq; congruence
    end.
Qed.

(** Every answer is cleaned. When the request a dispatcher makes is
    answered with a text, what the dispatcher returns is that text passed
    through the cleaner, for every provider; so it holds none of the cut
    tags. *)
Theorem text_reply_is_cleaned (prompt : pystr) (rq : request) (raw : pystr)
    (Hnet : net env rq = Text raw) :
  (forall config settings,
      snd (MessengerAPI.send_message env config prompt settings) = [rq] ->
      fst (MessengerAPI.send_message env config prompt settings) = clean_text raw /\
      forall tag, In tag cut_tags ->
        contains tag (fst (MessengerAPI.send_message env config prompt settings))
        = false) /\
  (forall am temperature max_tokens,
      snd (APIManager.send_message env am prompt temperature max_tokens) = [rq] ->
      fst (APIManager.send_message env am prompt temperature max_tokens)
      = _clean_text raw /\
      forall tag, In tag cut_tags ->
        contains tag (fst (APIManager.send_message env am prompt temperature max_tokens))
        = false).
Proof.
  split.
  - intros config settings H.
    rewrite (text_reply_api prompt rq raw config settings Hnet H).
    split; [reflexivity|]. intros tag Hin.
    exact (proj1 (clean_text_free raw tag Hin)).
  - intros am temperature max_tokens H.
    rewrite (text_reply_manager prompt rq raw am temperature max_tokens Hnet H).
    split; [reflexivity|]. intros tag Hin.
    exact (proj2 (clean_text_free raw tag Hin)).
Qed.

Lemma literal_tests :
  pystr_eqb (py "deepseek") (py "claude") = false /\
  pystr_eqb (py "deepseek") (py "gemini") = false /\
  pystr_eqb (py "deepseek") (py "openrouter") = false /\
  pystr_eqb (py "deepseek") (py "chutes") = false /\
  pystr_eqb (py "deepseek") (py "deepseek") = true /\
  existsb (pystr_eqb (py "deepseek"))
    [py "openrouter"; py "chutes"; py "featherless"; py "moonshot"] = false /\
  is_empty (py "deepseek") = false /\
  pystr_eqb (py "gemini") (py "claude") = false /\
  pystr_eqb (py "gemini") (py "gemini") = true /\
  pystr_eqb (py "claude") (py "claude") = true /\
  is_empty (py "claude") = false /\ is_empty (py "gemini") = false.
Proof. repeat split; by_evaluation. Qed.

Lemma is_empty_false (text : pystr) : text <> [] -> is_empty text = false.
Proof. now destruct text. Qed.

Lemma deepseek_api (prompt : pystr) (config : gmap pystr provider_data)
    (settings : MessengerAPI.api_settings) :
  MessengerAPI.provider settings = Some (py "deepseek") ->
  MessengerAPI.send_message env config prompt settings
  = match config !! py "deepseek" with
    | None =>
        (py "Ошибка: Провайдер '" ++ py "deepseek" ++ py "' не найден в конфигурации.", [])
    | Some data =>
        MessengerAPI.send_deepseek env prompt (default [] (MessengerAPI.model settings))
          (api data) (key data)
          (default (7 # 10)%Q (MessengerAPI.temperature settings))
          (default 300%Z (MessengerAPI.max_tokens settings))
    end.
Proof.
  intros Hp. destruct literal_tests as (E1 & E2 & E3 & E4 & E5 & _).
  unfold MessengerAPI.send_message. cbv zeta. rewrite Hp.
  cbn [default from_option id].
  destruct (config !! py "deepseek"); [|reflexivity].
  now rewrite E1, E2, E3, E4, E5.
Qed.

Lemma deepseek_manager (prompt model : pystr) (am : APIManager.t)
    (temperature : Q) (max_tokens : Z) :
  APIManager.current_provider am = Some (py "deepseek") ->
  APIManager.current_model am = Some model -> model <> [] ->
  APIManager.send_message env am prompt temperature max_tokens
  = APIManager._send_deepseek env prompt
      (api (APIManager.provider_data_of am (py "deepseek")))
      (key (APIManager.provider_data_of am (py "deepseek"))) temperature max_tokens.
Proof.
  intros Hp Hm Hne. destruct literal_tests as (E1 & E2 & _ & _ & E5 & E6 & E7 & _).
  unfold APIManager.send_message. cbv zeta. rewrite Hp, Hm.
  rewrite E7, (is_empty_false _ Hne). cbn [orb].
  now rewrite E1, E2, E6, E5.
Qed.

(** DeepSeek ignores the model. With provider [deepseek] the request names
    the model [deepseek-chat] whatever model the persona or the settings
    panel has chosen: changing the model changes neither the request nor
    the result. *)
Theorem deepseek_model_is_fixed (prompt : pystr) :
  (forall config settings model',
      MessengerAPI.provider settings = Some (py "deepseek") ->
      MessengerAPI.send_message env config prompt (with_model settings model')
      = MessengerAPI.send_message env config prompt settings /\
      Forall (fun rq => request_model rq = py "deepseek-chat")
             (snd (MessengerAPI.send_message env config prompt settings))) /\
  (forall am model model' temperature max_tokens,
      APIManager.current_provider am = Some (py "deepseek") ->
      APIManager.current_model am = Some model -> model <> [] -> model' <> [] ->
      APIManager.send_message env
        (APIManager.set_provider_and_model am (py "deepseek") model')
        prompt temperature max_tokens
      = APIManager.send_message env am prompt temperature max_tokens /\
      Forall (fun rq => request_model rq = py "deepseek-chat")
             (snd (APIManager.send_message env am prompt temperature max_tokens))).
Proof.
  split.
  - intros config settings model' Hp.
    rewrite (deepseek_api prompt config settings Hp).
    rewrite (deepseek_api prompt config (with_model settings model') Hp).
    destruct (config !! py "deepseek"); [|split; [reflexivity | constructor]].
    unfold MessengerAPI.send_deepseek. cbv zeta.
    split; [reflexivity|].
    destruct (negb (openai_installed env)); cbv [snd]; repeat constructor.
  - intros am model model' temperature max_tokens Hp Hm Hne Hne'.
    rewrite (deepseek_manager prompt model am temperature max_tokens Hp Hm Hne).
    rewrite (deepseek_manager prompt model'
               (APIManager.set_provider_and_model am (py "deepseek") model')
               temperature max_tokens eq_refl eq_refl Hne').
    split; [reflexivity|].
    unfold APIManager._send_deepseek. cbv zeta.
    destruct (negb (openai_installed env)); cbv [snd]; repeat constructor.
Qed.

(** Without the client library no request is made: for [claude], [gemini]
    and [deepseek] each dispatcher returns its error text at once when the
    library of the provider cannot be imported. *)
Theorem missing_client_no_request (prompt : pystr) :
  (forall config settings,
      client_installed env (default (py "claude") (MessengerAPI.provider settings))
      = false ->
      snd (MessengerAPI.send_message env config prompt settings) = []) /\
  (forall am provider temperature max_tokens,
      APIManager.current_provider am = Some provider ->
      client_installed env provider = false ->
      snd (APIManager.send_message env am prompt temperature max_tokens) = []).
Proof.
  destruct literal_tests as (E1 & E2 & E3 & E4 & E5 & E6 & _).
  split.
  - intros config settings. unfold client_installed, MessengerAPI.send_message.
    cbv zeta. set (provider := default (py "claude") (MessengerAPI.provider settings)).
    intros H. destruct (config !! provider); [|reflexivity].
    destruct (pystr_eqb provider (py "claude")).
    { unfold MessengerAPI.send_claude. now rewrite H. }
    destruct (pystr_eqb provider (py "gemini")).
    { unfold MessengerAPI.send_gemini. now rewrite H. }
    destruct (pystr_eqb provider (py "deepseek")) eqn:E; [|discriminate H].
    apply bool_decide_eq_true in E. rewrite E, E3, E4.
    unfold MessengerAPI.send_deepseek. now rewrite H.
  - intros am provider temperature max_tokens Hp. unfold client_installed.
    intros H. unfold APIManager.send_message. cbv zeta. rewrite Hp.
    destruct (APIManager.current_model am) as [model|]; [|reflexivity].
    destruct (is_empty provider || is_empty model); [reflexivity|].
    destruct (pystr_eqb provider (py "claude")).
    { unfold APIManager._send_claude. now rewrite H. }
    destruct (pystr_eqb provider (py "gemini")).
    { unfold APIManager._send_gemini. now rewrite H. }
    destruct (pystr_eqb provider (py "deepseek")) eqn:E; [|discriminate H].
    apply bool_decide_eq_true in E. rewrite E, E6.
    unfold APIManager._send_deepseek. now rewrite H.
Qed.

(** The key guard. With an empty key for [claude], [MessengerAPI] makes no
    request and reports the missing key, while [APIManager] has no such
    guard and hands the empty key to the client. *)
Theorem empty_key_guard (prompt model : pystr) (data : provider_data)
    (Hclient : anthropic_installed env = true)
    (Hkey : key data = [])
    (Hmodel : model <> []) :
  (forall config settings,
      MessengerAPI.provider settings = None \/
      MessengerAPI.provider settings = Some (py "claude") ->
      config !! py "claude" = Some data ->
      MessengerAPI.send_message env config prompt settings
      = (py "Ошибка: API-ключ для Claude не указан.", [])) /\
  (forall am temperature max_tokens,
      APIManager.current_provider am = Some (py "claude") ->
      APIManager.current_model am = Some model ->
      APIManager.config am !! py "claude" = Some data ->
      snd (APIManager.send_message env am prompt temperature max_tokens)
      = [AnthropicMessagesCreate [] model prompt max_tokens temperature]).
Proof.
  destruct literal_tests as (_ & _ & _ & _ & _ & _ & _ & _ & _ & E & E' & _).
  split.
  - intros config settings Hp Hc. unfold MessengerAPI.send_message. cbv zeta.
    assert (default (py "claude") (MessengerAPI.provider settings) = py "claude") as ->
      by (destruct Hp as [-> | ->]; reflexivity).
    rewrite Hc, E. unfold MessengerAPI.send_claude.
    now rewrite Hclient, Hkey.
  - intros am temperature max_tokens Hp Hm Hc.
    unfold APIManager.send_message. cbv zeta. rewrite Hp, Hm.
    rewrite E', (is_empty_false _ Hmodel), E. cbn [orb].
    unfold APIManager._send_claude, APIManager.provider_data_of.
    rewrite Hclient, Hc. cbn [negb default from_option id]. cbv zeta. cbv [snd].
    now rewrite Hkey.
Qed.

End Dispatchers.

Lemma text_reply_is_cleaned_witness :
  fst (MessengerAPI.send_message Sample.online
         (<[py "chutes" := {| api := py "https://llm.chutes.ai/v1/chat/completions";
                              key := py "k"; models := [] |}]> ∅)
         (py "Hello")
         {| MessengerAPI.provider := Some (py "chutes");
            MessengerAPI.model := Some (py "m");
            MessengerAPI.temperature := None; MessengerAPI.max_tokens := None |})
  = MessengerAPI_text.clean_text (py "hi").
Proof.
  refine (proj1 (proj1 (text_reply_is_cleaned Sample.online (py "Hello")
                   (RequestsPost (py "https://llm.chutes.ai/v1/chat/completions")
                      [(py "Authorization", py "Bearer " ++ py "k");
                       (py "Content-Type", py "application/json")]
                      (py "m") (py "Hello") 300 (7 # 10))
                   (py "hi") _) _ _ _)).
  - vm_compute. reflexivity.
  - vm_compute. reflexivity.
Defined.

Lemma deepseek_model_is_fixed_witness :
  MessengerAPI.send_message Sample.online
    (<[py "deepseek" := {| api := py "https://api.deepseek.com";
                           key := py "k"; models := [] |}]> ∅)
    (py "Hello")
    (with_model {| MessengerAPI.provider := Some (py "deepseek");
                   MessengerAPI.model := Some (py "deepseek-reasoner");
                   MessengerAPI.temperature := None;
                   MessengerAPI.max_tokens := None |} None)
  = MessengerAPI.send_message Sample.online
      (<[py "deepseek" := {| api := py "https://api.deepseek.com";
                             key := py "k"; models := [] |}]> ∅)
      (py "Hello")
      {| MessengerAPI.provider := Some (py "deepseek");
         MessengerAPI.model := Some (py "deepseek-reasoner");
         MessengerAPI.temperature := None; MessengerAPI.max_tokens := None |}.
Proof.
  refine (proj1 (proj1 (deepseek_model_is_fixed Sample.online (py "Hello")) _ _ _ _)).
  reflexivity.
Defined.

Lemma missing_client_no_request_witness :
  snd (APIManager.send_message
         {| anthropic_installed := false; genai_installed := true;
            openai_installed := true; net := fun _ => Text (py "hi") |}
         (Sample.unconfigured (py "claude")) (py "Hello") (7 # 10) 300)
  = [].
Proof.
  refine (proj2 (missing_client_no_request _ (py "Hello")) _ (py "claude") _ _ _ _).
  - reflexivity.
  - vm_compute. reflexivity.
Defined.

Lemma empty_key_guard_witness :
  snd (APIManager.send_message Sample.online
         {| APIManager.config :=
              <[py "claude" := {| api := []; key := []; models := [] |}]> ∅;
            APIManager.current_provider := Some (py "claude");
            APIManager.current_model := Some (py "m") |}
         (py "Hello") (7 # 10) 300)
  = [AnthropicMessagesCreate [] (py "m") (py "Hello") 300 (7 # 10)].
Proof.
  refine (proj2 (empty_key_guard Sample.online (py "Hello") (py "m")
                   {| api := []; key := []; models := [] |} _ _ _) _ _ _ _ _ _).
  - reflexivity.
  - reflexivity.
  - vm_compute. discriminate.
  - reflexivity.
  - reflexivity.
  - vm_compute. reflexivity.
Defined.

(** ** The selection of a provider *)

(** The selected provider is a registered one, at start-up and after every
    use of the settings panel, whose provider box offers the registered
    names only; a blank provider or model in the panel changes nothing. *)
Theorem selection_stays_registered (am : APIManager.t)
    (Hsel : selection_registered am) :
  (forall providers, selection_registered (APIManager.select_default am providers)) /\
  (forall provider model,
      is_Some (APIManager.config am !! provider) ->
      selection_registered (APIManager.apply_settings am provider model)) /\
  (forall provider model,
      provider = [] \/ model = [] -> APIManager.apply_settings am provider model = am).
Proof.
  split; [|split].
  - intros [|provider rest]; [exact Hsel|]. unfold APIManager.select_default.
    destruct (APIManager.get_models am provider) as [|model models] eqn:E;
      [exact Hsel|].
    exact (get_models_registered am provider model models E).
  - intros provider model Hreg. unfold APIManager.apply_settings.
    destruct (is_empty provider || is_empty model); [exact Hsel | exact Hreg].
  - intros provider model [-> | ->]; unfold APIManager.apply_settings.
    + reflexivity.
    + now rewrite orb_true_r.
Qed.

Lemma selection_stays_registered_witness :
  selection_registered
    (APIManager.select_default
       {| APIManager.config :=
            <[py "gemini" := {| api := []; key := py "k";
                                models := [py "gemini-pro"] |}]> ∅;
          APIManager.current_provider := None;
          APIManager.current_model := None |}
       [py "gemini"]).
Proof.
  refine (proj1 (selection_stays_registered _ _) _).
  exact I.
Defined.

(** ** The photo of a directive *)

Lemma startswith_one_app (a b : pystr) :
  a <> [] -> startswith (py "/") (a ++ b) = startswith (py "/") a.
Proof.
  intros Ha. replace (py "/") with [47] by by_evaluation.
  destruct a as [|c a]; [congruence|]. reflexivity.
Qed.

Lemma ends_app (a b : pystr) :
  b <> [] -> startswith (py "/") (rev (a ++ b)) = startswith (py "/") (rev b).
Proof.
  intros Hb. rewrite rev_app_distr. apply startswith_one_app.
  intros H. apply (f_equal (@rev N)) in H. rewrite rev_involutive in H.
  now apply Hb.
Qed.

Lemma join_relative (a b : pystr) :
  startswith (py "/") b = false -> a <> [] ->
  startswith (py "/") (rev a) = false ->
  MessengerApp.path_join2 a b = a ++ py "/" ++ b.
Proof.
  intros Hb Ha He. unfold MessengerApp.path_join2. rewrite Hb, He.
  destruct a; [congruence | reflexivity].
Qed.

Lemma slash_app_nonempty (b : pystr) : py "/" ++ b <> [].
Proof. replace (py "/") with [47] by by_evaluation. discriminate. Qed.

Lemma photo_path_relative (id file : pystr) :
  relative file = true -> relative id = true -> id <> [] ->
  no_trailing_slash id = true ->
  MessengerApp.path_join MessengerApp.CHARACTERS_DIR [id; py "photos"; file]
  = ((py "characters" ++ py "/" ++ id) ++ py "/" ++ py "photos") ++ py "/" ++ file.
Proof.
  unfold relative, no_trailing_slash. rewrite !negb_true_iff.
  intros Hfile Hid Hne Hend.
  unfold MessengerApp.path_join, MessengerApp.CHARACTERS_DIR. cbn [fold_left].
  rewrite (join_relative (py "characters") id Hid);
    [|by_evaluation | by_evaluation].
  rewrite (join_relative _ (py "photos"));
    [|by_evaluation | |].
  - apply join_relative; [exact Hfile | |].
    + intros H. apply app_eq_nil in H as [_ H]. now apply slash_app_nonempty in H.
    + rewrite ends_app by apply slash_app_nonempty. by_evaluation.
  - intros H. apply app_eq_nil in H as [_ H]. now apply slash_app_nonempty in H.
  - rewrite ends_app by apply slash_app_nonempty.
    rewrite ends_app by exact Hne. exact Hend.
Qed.

Lemma photo_path_absolute (id file : pystr) :
  relative file = false ->
  MessengerApp.path_join MessengerApp.CHARACTERS_DIR [id; py "photos"; file] = file.
Proof.
  unfold relative. rewrite negb_false_iff. intros Hfile.
  unfold MessengerApp.path_join. cbn [fold_left].
  unfold MessengerApp.path_join2 at 1. now rewrite Hfile.
Qed.

(** First match wins. The photo of a directive is the first photo of the
    persona whose file name contains the token, wherever in the name; the
    photos before it do not contain the token, and without such a photo
    there is none. *)
Theorem photo_first_match (character : MessengerApp.char_data) (token : pystr)
    (photos : list photo) :
  match MessengerApp.find_photo character token photos with
  | Some path =>
      exists before p after,
        photos = before ++ p :: after /\
        Forall (fun q => contains token (filename q) = false) before /\
        contains token (filename p) = true /\
        path = MessengerApp.path_join MessengerApp.CHARACTERS_DIR
                 [MessengerApp.id character; py "photos"; filename p]
  | None => Forall (fun q => contains token (filename q) = false) photos
  end.
Proof.
  induction photos as [|p photos IH]; cbn [MessengerApp.find_photo]; [constructor|].
  destruct (contains token (filename p)) eqn:E.
  - exists [], p, photos. repeat split; [constructor | exact E].
  - destruct (MessengerApp.find_photo character token photos) as [path|].
    + destruct IH as (before & q & after & -> & Hb & Hq & ->).
      exists (p :: before), q, after. repeat split; [constructor; assumption | exact Hq].
    + constructor; assumption.
Qed.

(** Where the photo is looked for. For a persona id and a file name that
    are relative paths, the photo of a directive is the file
    [characters/<id>/photos/<file name>]; a file name that starts with a
    slash is taken as it is, outside the directory of the persona. *)
Theorem photo_path_shape (character : MessengerApp.char_data) (token : pystr)
    (p : photo) (rest : list photo)
    (Hmatch : contains token (filename p) = true) :
  (relative (filename p) = true -> relative (MessengerApp.id character) = true ->
   MessengerApp.id character <> [] ->
   no_trailing_slash (MessengerApp.id character) = true ->
   MessengerApp.find_photo character token (p :: rest)
   = Some (((py "characters" ++ py "/" ++ MessengerApp.id character)
            ++ py "/" ++ py "photos") ++ py "/" ++ filename p)) /\
  (relative (filename p) = false ->
   MessengerApp.find_photo character token (p :: rest) = Some (filename p)).
Proof.
  cbn [MessengerApp.find_photo]. rewrite Hmatch. split.
  - intros H1 H2 H3 H4. now rewrite photo_path_relative.
  - intros H. now rewrite photo_path_absolute.
Qed.

Lemma photo_path_shape_witness :
  MessengerApp.find_photo Sample.alice_data (py "smile")
    [{| filename := py "/tmp/smile.png" |}]
  = Some (filename {| filename := py "/tmp/smile.png" |}).
Proof.
  refine (proj2 (photo_path_shape Sample.alice_data (py "smile")
                   {| filename := py "/tmp/smile.png" |} [] _) _).
  - vm_compute. reflexivity.
  - vm_compute. reflexivity.
Defined.
